(** * exampleMODIS.js: preparation of the NDVI, LST, SOL and We series for the NPP model

    The script builds, for a list of anchor dates, four image series out of
    the provider's collections (MODIS NDVI, MODIS LST, ERA5 solar radiation,
    MODIS ET/PET), masks them with one shared mask and hands them to the NPP
    functions.  Every call of the script is a call of the raster provider
    that builds the description of an image; the descriptions are embedded
    as the inductive type [Image], the script's own chains as functions that
    build them, and the provider's reading of a description, pixel by pixel,
    as [eval].

    Pixel values are exact rationals ([Qc]); a masked or absent value is
    [None].  Binary64 rounding of the provider is not modelled, apart from
    one evaluation of the temperature conversion on primitive floats. *)

From Stdlib Require Import ZArith QArith Qcanon Floats Ascii String.
From Stdlib Require Import Lqa.
From stdpp Require Import gmap strings list fin_maps.

Set Warnings "-register-all,-inexact-float".

Local Open Scope Z_scope.

(** ** Errors of the provider *)

Inductive error :=
| IndexOutOfBounds (i : Z)            (* ee.List.get outside the list *)
| InvalidDate (s : string)            (* ee.Date of a string that is no date *)
| BandNotFound (b : string)           (* select of a band the image lacks *)
| BandCountMismatch (n m : nat)       (* rename or band arithmetic on the wrong number of bands *)
| PropertyNotFound (k : string).      (* a property the image lacks *)

Inductive res (A : Type) :=
| Ok (a : A)
| Err (e : error).
Arguments Ok {A} a.
Arguments Err {A} e.

#[export] Instance res_ret : MRet res := fun _ a => Ok a.
#[export] Instance res_bind : MBind res := fun _ _ f m =>
  match m with
  | Ok a => f a
  | Err e => Err e
  end.

Definition is_Ok {A} (r : res A) : Prop := ∃ a, r = Ok a.

(** ** Dates: ee.Date, milliseconds since 1970-01-01T00:00:00Z *)

Module EEDate.

Definition MS_PER_DAY : Z := 86400000.

Definition is_leap (y : Z) : bool :=
  ((y mod 4 =? 0) && negb (y mod 100 =? 0)) || (y mod 400 =? 0).

Definition days_in_month (y m : Z) : Z :=
  if m =? 2 then (if is_leap y then 29 else 28)
  else if (m =? 4) || (m =? 6) || (m =? 9) || (m =? 11) then 30
  else 31.

(** Days between 1970-01-01 and the civil date y-m-d (proleptic Gregorian). *)
Definition days_from_civil (y m d : Z) : Z :=
  let y' := if m <=? 2 then y - 1 else y in
  let era := y' / 400 in
  let yoe := y' - era * 400 in
  let mp := if 2 <? m then m - 3 else m + 9 in
  let doy := (153 * mp + 2) / 5 + d - 1 in
  let doe := yoe * 365 + yoe / 4 - yoe / 100 + doy in
  era * 146097 + doe - 719468.

Definition civil_from_days (z : Z) : Z * Z * Z :=
  let z' := z + 719468 in
  let era := z' / 146097 in
  let doe := z' - era * 146097 in
  let yoe := (doe - doe / 1460 + doe / 36524 - doe / 146096) / 365 in
  let doy := doe - (365 * yoe + yoe / 4 - yoe / 100) in
  let mp := (5 * doy + 2) / 153 in
  let d := doy - (153 * mp + 2) / 5 + 1 in
  let m := if mp <? 10 then mp + 3 else mp - 9 in
  let y := yoe + era * 400 in
  (if m <=? 2 then y + 1 else y, m, d).

Definition digit (c : ascii) : option Z :=
  let n := Z.of_nat (nat_of_ascii c) in
  if (48 <=? n) && (n <=? 57) then Some (n - 48) else None.

Fixpoint number (acc : Z) (cs : list ascii) : option Z :=
  match cs with
  | [] => Some acc
  | c :: cs' => d ← digit c; number (10 * acc + d) cs'
  end.

(** The one format the script writes its dates in: yyyy-MM-dd. *)
Definition parse (s : string) : option Z :=
  match list_ascii_of_string s with
  | [y1; y2; y3; y4; dash1; m1; m2; dash2; d1; d2] =>
      if negb (Ascii.eqb dash1 "-" && Ascii.eqb dash2 "-") then None else
      y ← number 0 [y1; y2; y3; y4];
      m ← number 0 [m1; m2];
      d ← number 0 [d1; d2];
      if (1 <=? m) && (m <=? 12) && (1 <=? d) && (d <=? days_in_month y m)
      then Some (days_from_civil y m d * MS_PER_DAY)
      else None
  | _ => None
  end.

Definition digit_char (n : Z) : ascii := ascii_of_nat (Z.to_nat (48 + n mod 10)).

Definition pad2 (n : Z) : string :=
  String (digit_char (n / 10)) (String (digit_char n) EmptyString).

Definition pad4 (n : Z) : string :=
  String (digit_char (n / 1000)) (String (digit_char (n / 100)) (pad2 n)).

(** date.format("yyyy-MM-dd") *)
Definition format (t : Z) : string :=
  let '(y, m, d) := civil_from_days (t / MS_PER_DAY) in
  (pad4 y +:+ "-" +:+ pad2 m +:+ "-" +:+ pad2 d)%string.

Inductive unit_of_time := Day.

Definition unit_ms (u : unit_of_time) : Z :=
  match u with Day => MS_PER_DAY end.

(** date.advance(delta, unit) *)
Definition advance (delta : Z) (u : unit_of_time) (t : Z) : Z :=
  t + delta * unit_ms u.

End EEDate.

(** ee.Date(string) *)
Definition Date (s : string) : res Z :=
  match EEDate.parse s with
  | Some t => Ok t
  | None => Err (InvalidDate s)
  end.

(** ee.List.get(i): a negative index counts from the end of the list. *)
Definition List_get {A} (l : list A) (i : Z) : res A :=
  let n := Z.of_nat (length l) in
  let j := if i <? 0 then n + i else i in
  if (j <? 0) || (n <=? j) then Err (IndexOutOfBounds i)
  else match l !! Z.to_nat j with
       | Some x => Ok x
       | None => Err (IndexOutOfBounds i)
       end.

(** ee.List.map and ImageCollection.map: one result per element, in order;
    a failing element fails the whole. *)
Definition List_map {A B} (f : A → res B) : list A → res (list B) :=
  fix go l :=
    match l with
    | [] => Ok []
    | x :: l' => y ← f x; ys ← go l'; Ok (y :: ys)
    end.

(** ** The period schedule (lines 43-45, and the window of lines 80, 102, 123) *)

Definition dates : list string :=
  ["2018-01-01"; "2018-01-17"; "2018-02-02"; "2018-02-18"]%string.

Definition startDate (dates : list string) : res Z :=
  d ← List_get dates 0; Date d.

Definition endDate (dates : list string) : res Z :=
  d ← List_get dates (-1); t ← Date d; Ok (EEDate.advance 1 EEDate.Day t).

(** The bounds [ee.Date(dateString), ee.Date(dateString).advance(16, "day")]
    every accumulated source filters by. *)
Definition window (dateString : string) : res (Z * Z) :=
  s ← Date dateString;
  e ← Date dateString;
  Ok (s, EEDate.advance 16 EEDate.Day e).

Record Schedule := {
  nativeFilterRange : Z * Z;
  periods : list (Z * Z)
}.

Definition PeriodSchedule (dates : list string) : res Schedule :=
  s ← startDate dates;
  e ← endDate dates;
  ws ← List_map window dates;
  Ok {| nativeFilterRange := (s, e); periods := ws |}.

(** ** Rasters and the provider *)

Local Open Scope Qc_scope.

(** A decimal constant of the script, n/d. *)
Definition dec (n : Z) (d : positive) : Qc := Q2Qc (n # d).

Definition Pixel : Type := Z * Z.

(** A geometry, as the pixels of the reference grid it covers. *)
Definition Region : Type := list Pixel.

Definition inside (p : Pixel) (r : Region) : bool := bool_decide (p ∈ r).

Definition intersects (a b : Region) : bool := existsb (fun p => inside p b) a.

(** The value of a band at a pixel; [None] is no data. *)
Definition Value : Type := option Qc.

(** The bands of an image at one pixel, in band order. *)
Definition Bands : Type := list (string * Value).

Fixpoint band (b : string) (v : Bands) : option Value :=
  match v with
  | [] => None
  | (n, x) :: v' => if String.eqb n b then Some x else band b v'
  end.

(** An image the provider stores. *)
Record StoredImage := {
  time_start : Z;
  footprint : Region;
  properties : gmap string string;
  pixel : string → Pixel → Value
}.

(** A collection of stored images, with the bands it has (or was cut down to). *)
Record Collection := {
  c_bands : list string;
  c_images : list StoredImage
}.

(** What the script takes from the provider without saying how it is made:
    the stored collections, the division of two pixel values, and the input
    pixel that reprojection to a scale reads for an output pixel. *)
Record Provider := {
  collections : string → Collection;
  divide_px : Qc → Qc → Value;
  resample : string → Z → Pixel → Pixel
}.

Inductive Reducer := Mean | Sum.

Inductive BinOp := Mul | Div | Plus | Minus.

(** The description of an image: what the calls of the script build. *)
Inductive Image :=
| Stored (bands : list string) (s : StoredImage)
| Constant (c : Qc)
| Reduce (r : Reducer) (bands : list string) (imgs : list Image)
| Select (b : string) (e : Image)
| Rename (name : string) (e : Image)
| BandMath (op : BinOp) (e1 e2 : Image)
| Clip (roi : Region) (e : Image)
| Reproject (crs : string) (scale : Z) (e : Image)
| SetProp (key value : string) (e : Image)
| UpdateMask (mask : Image) (e : Image).

(** A number given where an image is expected is the constant image. *)
Coercion Constant : Qc >-> Image.

(** *** Collections: filters, selection, reduction, map *)

Definition ImageCollection (P : Provider) (id : string) : Collection :=
  collections P id.

Definition filterBounds (roi : Region) (c : Collection) : Collection :=
  {| c_bands := c_bands c;
     c_images := List.filter (fun s => intersects (footprint s) roi) (c_images c) |}.

(** filterDate(start, end): start inclusive, end exclusive. *)
Definition filterDate (s e : Z) (c : Collection) : Collection :=
  {| c_bands := c_bands c;
     c_images := List.filter (fun i => (s <=? time_start i)%Z && (time_start i <? e)%Z) (c_images c) |}.

Definition select_c (b : string) (c : Collection) : res Collection :=
  if bool_decide (b ∈ c_bands c)
  then Ok {| c_bands := [b]; c_images := c_images c |}
  else Err (BandNotFound b).

Definition images (c : Collection) : list Image :=
  map (Stored (c_bands c)) (c_images c).

Definition mean (c : Collection) : Image := Reduce Mean (c_bands c) (images c).
Definition sum (c : Collection) : Image := Reduce Sum (c_bands c) (images c).

Definition Collection_map (f : Image → res Image) (c : Collection) : res (list Image) :=
  List_map f (images c).

(** *** Images: the calls of the script *)

Definition rename (name : string) (e : Image) : Image := Rename name e.
Definition select (b : string) (e : Image) : Image := Select b e.
Definition multiply (x : Image) (e : Image) : Image := BandMath Mul e x.
Definition divide (x : Image) (e : Image) : Image := BandMath Div e x.
Definition add (x : Image) (e : Image) : Image := BandMath Plus e x.
Definition subtract (x : Image) (e : Image) : Image := BandMath Minus e x.
Definition clip (roi : Region) (e : Image) : Image := Clip roi e.
Definition reproject (crs : string) (scale : Z) (e : Image) : Image := Reproject crs scale e.
Definition set (key value : string) (e : Image) : Image := SetProp key value e.
Definition updateMask (mask : Image) (e : Image) : Image := UpdateMask mask e.

(** The properties of an image.  Masking, clipping, selecting, renaming and
    reprojecting keep them; a reduction, a constant and band arithmetic
    start from none. *)
Fixpoint props (e : Image) : gmap string string :=
  match e with
  | Stored _ s => properties s
  | Constant _ => ∅
  | Reduce _ _ _ => ∅
  | BandMath _ _ _ => ∅
  | Select _ e' | Rename _ e' | Clip _ e' | Reproject _ _ e' | UpdateMask _ e' => props e'
  | SetProp k v e' => <[k := v]> (props e')
  end.

Fixpoint time_of (e : Image) : option Z :=
  match e with
  | Stored _ s => Some (time_start s)
  | Constant _ | Reduce _ _ _ | BandMath _ _ _ => None
  | Select _ e' | Rename _ e' | Clip _ e' | Reproject _ _ e'
  | UpdateMask _ e' | SetProp _ _ e' => time_of e'
  end.

(** image.date() *)
Definition date (e : Image) : res Z :=
  match time_of e with
  | Some t => Ok t
  | None => Err (PropertyNotFound "system:time_start")
  end.

(** *** The provider's reading of a description at a pixel *)

Definition total (xs : list Qc) : Qc := foldr Qcplus 0 xs.

Definition count (xs : list Qc) : Qc := Q2Qc (inject_Z (Z.of_nat (length xs))).

(** Modelled from the spec: the provider's reduction of a collection.  Only
    the valid values of a pixel enter it, and where there is none, as over
    an empty collection, the result is no data ("the reduction over an empty
    set is well-defined in the underlying provider (produces a
    fully-invalid/no-data image)"). *)
Definition reduce (r : Reducer) (vs : list Value) : Value :=
  match omap id vs with
  | [] => None
  | xs => Some (match r with
                | Sum => total xs
                | Mean => total xs / count xs
                end)
  end.

Definition band_value (b : string) (v : Bands) : Value :=
  match band b v with
  | Some x => x
  | None => None
  end.

Definition apply_op (P : Provider) (op : BinOp) (x y : Value) : Value :=
  match x, y with
  | Some a, Some b =>
      match op with
      | Mul => Some (a * b)
      | Div => divide_px P a b
      | Plus => Some (a + b)
      | Minus => Some (a - b)
      end
  | _, _ => None
  end.

(** Band arithmetic: an image of one band is used against every band of the
    other; otherwise the bands are paired in order and must be as many.
    The result has the names of the longer image, of the first when equal. *)
Definition pair_bands (f : Value → Value → Value) (v1 v2 : Bands) : res Bands :=
  match v1, v2 with
  | _, [(_, y)] => Ok (map (fun nx => (fst nx, f (snd nx) y)) v1)
  | [(_, x)], _ => Ok (map (fun ny => (fst ny, f x (snd ny))) v2)
  | _, _ =>
      if (length v1 =? length v2)%nat
      then Ok (zip_with (fun nx ny => (fst nx, f (snd nx) (snd ny))) v1 v2)
      else Err (BandCountMismatch (length v1) (length v2))
  end.

(** Modelled from the spec: the Harmonizer's masking ("set pixels outside
    mask's valid region to no-data"); the mask is valid where it has a value
    other than 0. *)
Definition keep (m x : Value) : Value :=
  match m with
  | Some w => if decide (w = 0) then None else x
  | None => None
  end.

Definition mask_bands (mv v : Bands) : res Bands :=
  match mv with
  | [(_, m)] => Ok (map (fun nx => (fst nx, keep m (snd nx))) v)
  | _ =>
      if (length mv =? length v)%nat
      then Ok (zip_with (fun nm nx => (fst nx, keep (snd nm) (snd nx))) mv v)
      else Err (BandCountMismatch (length mv) (length v))
  end.

Definition no_data (v : Bands) : Bands := map (fun nx => (fst nx, None)) v.

Fixpoint eval (P : Provider) (e : Image) (p : Pixel) : res Bands :=
  match e with
  | Stored bands s => Ok (map (fun b => (b, pixel s b p)) bands)
  | Constant c => Ok [("constant"%string, Some c)]
  | Reduce r bands imgs =>
      vs ← List_map (fun i => eval P i p) imgs;
      Ok (map (fun b => (b, reduce r (map (band_value b) vs))) bands)
  | Select b e' =>
      v ← eval P e' p;
      match band b v with
      | Some x => Ok [(b, x)]
      | None => Err (BandNotFound b)
      end
  | Rename name e' =>
      v ← eval P e' p;
      match v with
      | [(_, x)] => Ok [(name, x)]
      | _ => Err (BandCountMismatch 1 (length v))
      end
  | BandMath op e1 e2 =>
      v1 ← eval P e1 p;
      v2 ← eval P e2 p;
      pair_bands (apply_op P op) v1 v2
  | Clip roi e' =>
      v ← eval P e' p;
      Ok (if inside p roi then v else no_data v)
  | Reproject crs scale e' => eval P e' (resample P crs scale p)
  | SetProp _ _ e' => eval P e' p
  | UpdateMask m e' =>
      mv ← eval P m p;
      v ← eval P e' p;
      mask_bands mv v
  end.

(** ** The script *)

(** A chain of calls, read left to right as in the script. *)
Notation "x |> f" := (f x) (at level 68, left associativity, only parsing).

(** Set scale (m/px) to upscale/downscale NDVI, LST, SOL and We images *)
Definition SCALE_M_PX : Z := 250.

(** Optimal Temperature and Max LUE *)
Definition Topt : Qc := dec 2485 100.
Definition LUEmax : Qc := dec 926 1000.

Section Script.

(** The provider, and the two assets the script loads by name: the region
    of interest and the soybean mask. *)
Variable P : Provider.
Variable ROI : Region.
Variable soybeanMask : Image.

(** NDVI collection (lines 58-69) *)
Definition collectionNDVI_image (img : Image) : res Image :=
  t ← date img;
  Ok (img
      |> clip ROI
      |> rename "NDVI"
      |> multiply (dec 1 10000)
      |> reproject "EPSG:4326" SCALE_M_PX
      |> set "date" (EEDate.format t)).

Definition collectionNDVI (dates : list string) : res (list Image) :=
  startDate ← startDate dates;
  endDate ← endDate dates;
  c ← (ImageCollection P "MODIS/061/MOD13Q1"
       |> filterBounds ROI
       |> filterDate startDate endDate
       |> select_c "NDVI");
  Collection_map collectionNDVI_image c.

(** Land Surface Temperature (LST) collection (lines 77-89) *)
Definition collectionLST_image (dateString : string) : res Image :=
  '(s, e) ← window dateString;
  c ← (ImageCollection P "MODIS/061/MOD11A2"
       |> filterBounds ROI
       |> filterDate s e
       |> select_c "LST_Day_1km");
  Ok (mean c
      |> rename "LST"
      |> multiply (dec 2 100)
      |> subtract (dec 27315 100)
      |> clip ROI
      |> reproject "EPSG:4326" SCALE_M_PX
      |> set "date" dateString).

Definition collectionLST (dates : list string) : res (list Image) :=
  List_map collectionLST_image dates.

(** Solar Radiation (SOL) collection (lines 99-110) *)
Definition collectionSOL_image (dateString : string) : res Image :=
  '(s, e) ← window dateString;
  c ← (ImageCollection P "ECMWF/ERA5_LAND/HOURLY"
       |> filterBounds ROI
       |> filterDate s e
       |> select_c "surface_solar_radiation_downwards_hourly");
  Ok (sum c
      |> rename "SOL"
      |> divide (dec 1000000 1)
      |> clip ROI
      |> reproject "EPSG:4326" SCALE_M_PX
      |> set "date" dateString).

Definition collectionSOL (dates : list string) : res (list Image) :=
  List_map collectionSOL_image dates.

(** WeMODIS, band math between the ET and PET bands (lines 120-138) *)
Definition imageSum16days (s e : Z) : Image :=
  ImageCollection P "MODIS/006/MOD16A2"
  |> filterDate s e
  |> filterBounds ROI
  |> sum.

Definition collectionWe_image (dateString : string) : res Image :=
  '(s, e) ← window dateString;
  let ET := imageSum16days s e |> select "ET" in
  let PET := imageSum16days s e |> select "PET" in
  let We := ET |> divide PET |> multiply (dec 5 10) |> add (dec 5 10) in
  Ok (We
      |> rename "We"
      |> clip ROI
      |> reproject "EPSG:4326" SCALE_M_PX
      |> set "data" dateString).

Definition collectionWe (dates : list string) : res (list Image) :=
  List_map collectionWe_image dates.

(** Apply a soybean mask in all collections (lines 182-189) *)
Definition maskCollections (img : Image) : Image := img |> updateMask soybeanMask.

Record Inputs := {
  in_NDVI : list Image;
  in_LST : list Image;
  in_SOL : list Image;
  in_We : list Image
}.

Definition masked_inputs (dates : list string) : res Inputs :=
  ndvi ← collectionNDVI dates;
  lst ← collectionLST dates;
  sol ← collectionSOL dates;
  we ← collectionWe dates;
  Ok {| in_NDVI := map maskCollections ndvi;
        in_LST := map maskCollections lst;
        in_SOL := map maskCollections sol;
        in_We := map maskCollections we |}.

End Script.

(** ** The NPP functions *)

Section NPP.

(** The NPP formula of one period, left abstract. *)
Variable singleNPP : Image → Image → Image → Image → Qc → Qc → Image.

(** Modelled from the spec: computeNPP.collectionNPP, of the required
    module users/leobeckerdaluz/NPP_algorithm:computeNPP, which src/ lacks
    ("computeBatch(ndviSeries, lstSeries, solSeries, weSeries, topt,
    luemax) -> orderedSeriesOfRasterImage", the four series aligned by
    period index). *)
Fixpoint computeNPP_collectionNPP (ndvi lst sol we : list Image) (topt luemax : Qc)
  : list Image :=
  match ndvi, lst, sol, we with
  | n :: ndvi', l :: lst', s :: sol', w :: we' =>
      singleNPP n l s w topt luemax
      :: computeNPP_collectionNPP ndvi' lst' sol' we' topt luemax
  | _, _, _, _ => []
  end.

(** Compute collectionNPP (lines 206-212) *)
Definition collectionNPP (P : Provider) (ROI : Region) (soybeanMask : Image)
    (dates : list string) : res (list Image) :=
  ins ← masked_inputs P ROI soybeanMask dates;
  Ok (computeNPP_collectionNPP (in_NDVI ins) (in_LST ins) (in_SOL ins) (in_We ins)
        Topt LUEmax).

End NPP.

(** ** Reading the order of the steps off a description *)

(** The number of resampling steps of a description. *)
Fixpoint reprojections (e : Image) : nat :=
  match e with
  | Stored _ _ | Constant _ => 0
  | Reduce _ _ imgs => sum_list (map reprojections imgs)
  | Reproject _ _ e' => S (reprojections e')
  | Select _ e' | Rename _ e' | Clip _ e' | SetProp _ _ e' => reprojections e'
  | BandMath _ e1 e2 | UpdateMask e1 e2 => reprojections e1 + reprojections e2
  end.

(** The number of temporal reductions of a description. *)
Fixpoint reductions (e : Image) : nat :=
  match e with
  | Stored _ _ | Constant _ => 0
  | Reduce _ _ imgs => S (sum_list (map reductions imgs))
  | Select _ e' | Rename _ e' | Clip _ e' | SetProp _ _ e' | Reproject _ _ e' => reductions e'
  | BandMath _ e1 e2 | UpdateMask e1 e2 => reductions e1 + reductions e2
  end.

(** Every resampling step reads an image that was reduced already, and no
    reduction reads a resampled image. *)
Fixpoint reduce_first (e : Image) : bool :=
  match e with
  | Stored _ _ | Constant _ => true
  | Reduce _ _ imgs => forallb (fun i => (reprojections i =? 0)%nat && reduce_first i) imgs
  | Reproject _ _ e' => (0 <? reductions e')%nat && reduce_first e'
  | Select _ e' | Rename _ e' | Clip _ e' | SetProp _ _ e' => reduce_first e'
  | BandMath _ e1 e2 | UpdateMask e1 e2 => reduce_first e1 && reduce_first e2
  end.

(** The stored images of a collection that a window of a builder reads. *)
Definition window_images (P : Provider) (ROI : Region) (id : string) (s e : Z)
  : list StoredImage :=
  c_images (filterDate s e (filterBounds ROI (ImageCollection P id))).

(** The same for the We builder, which filters by date first. *)
Definition window_images_We (P : Provider) (ROI : Region) (s e : Z) : list StoredImage :=
  c_images (filterBounds ROI (filterDate s e (ImageCollection P "MODIS/006/MOD16A2"))).

Definition has_band (P : Provider) (id b : string) : Prop :=
  b ∈ c_bands (collections P id).

(** The values of a band of the stored images at a pixel. *)
Definition values (srcs : list StoredImage) (b : string) (p : Pixel) : list Value :=
  map (fun s => pixel s b p) srcs.

(** The pixel of its input that an image of a series reads for its pixel p. *)
Definition sampled (P : Provider) (p : Pixel) : Pixel :=
  resample P "EPSG:4326" SCALE_M_PX p.

(** ** A small provider, for the examples *)

Module Example.

Definition ms (s : string) : Z := default 0%Z (EEDate.parse s).

Definition q (n : Z) : Qc := Q2Qc (inject_Z n).

(** A stored image with the same values at every pixel. *)
Definition flat (t : string) (vals : Bands) : StoredImage :=
  {| time_start := ms t;
     footprint := [(0, 0)%Z];
     properties := {["system:index" := t]};
     pixel := fun b _ => band_value b vals |}.

Definition MOD13Q1 (ts : list string) : Collection :=
  {| c_bands := ["NDVI"; "EVI"]%string;
     c_images := map (fun t => flat t [("NDVI"%string, Some (q 5000))]) ts |}.

Definition MOD11A2 : Collection :=
  {| c_bands := ["LST_Day_1km"; "QC_Day"]%string;
     c_images := [flat "2018-01-01" [("LST_Day_1km"%string, Some (q 290))];
                  flat "2018-01-09" [("LST_Day_1km"%string, Some (q 310))]] |}.

Definition ERA5 : Collection :=
  {| c_bands := ["surface_solar_radiation_downwards_hourly"]%string;
     c_images := [flat "2018-01-01" [("surface_solar_radiation_downwards_hourly"%string,
                                       Some (q 3000000))]] |}.

(** ET = PET in the first window, ET = 0 in the second, PET = 0 in the
    third, and no image at all in the fourth. *)
Definition MOD16A2 : Collection :=
  {| c_bands := ["ET"; "LE"; "PET"]%string;
     c_images := [flat "2018-01-01" [("ET"%string, Some (q 10)); ("PET"%string, Some (q 15))];
                  flat "2018-01-09" [("ET"%string, Some (q 20)); ("PET"%string, Some (q 15))];
                  flat "2018-01-17" [("ET"%string, Some (q 0)); ("PET"%string, Some (q 40))];
                  flat "2018-02-02" [("ET"%string, Some (q 7)); ("PET"%string, Some (q 0))]] |}.

Definition stored (ndvi : list string) (id : string) : Collection :=
  if String.eqb id "MODIS/061/MOD13Q1" then MOD13Q1 ndvi
  else if String.eqb id "MODIS/061/MOD11A2" then MOD11A2
  else if String.eqb id "ECMWF/ERA5_LAND/HOURLY" then ERA5
  else if String.eqb id "MODIS/006/MOD16A2" then MOD16A2
  else {| c_bands := []; c_images := [] |}.

(** Division that gives no data on a zero divisor. *)
Definition div_nodata (a b : Qc) : Value :=
  if decide (b = 0) then None else Some (a / b).

(** Division that gives 0 on a zero divisor. *)
Definition div_zero (a b : Qc) : Value :=
  if decide (b = 0) then Some 0 else Some (a / b).

(** The provider with an NDVI composite at every anchor. *)
Definition provider : Provider :=
  {| collections := stored dates;
     divide_px := div_nodata;
     resample := fun _ _ p => p |}.

Definition provider_div_zero : Provider :=
  {| collections := stored dates;
     divide_px := div_zero;
     resample := fun _ _ p => p |}.

(** The provider with NDVI composites at the first two anchors only. *)
Definition provider_short_NDVI : Provider :=
  {| collections := stored ["2018-01-01"; "2018-01-17"]%string;
     divide_px := div_nodata;
     resample := fun _ _ p => p |}.

Definition ROI : Region := [(0, 0)%Z; (0, 1)%Z].

(** A mask valid at pixel (0, 0) only. *)
Definition soybeanMask : Image :=
  Stored ["b1"%string]
    {| time_start := 0;
       footprint := ROI;
       properties := ∅;
       pixel := fun _ p => if bool_decide (p = (0, 0)%Z) then Some 1 else Some 0 |}.

(** A stand-in for the NPP formula: it keeps the four inputs in sight. *)
Definition singleNPP (ndvi lst sol we : Image) (topt luemax : Qc) : Image :=
  BandMath Mul (BandMath Mul ndvi lst) (BandMath Mul sol we).

End Example.

(** ** Notions the statements use *)

Definition days (n : Z) : Z := (n * EEDate.MS_PER_DAY)%Z.

Fixpoint strictly_increasing (ts : list Z) : Prop :=
  match ts with
  | t :: ((u :: _) as ts') => (t < u)%Z ∧ strictly_increasing ts'
  | _ => True
  end.

(** The dates of a list of anchors. *)
Definition anchors_at (dates : list string) (ts : list Z) : Prop :=
  Forall2 (fun d t => EEDate.parse d = Some t) dates ts.

(** The entry a builder makes for a period is an image of one band that has
    no data anywhere, and stays so under the mask (where the mask is an image
    of one band). *)
Definition no_data_entry (P : Provider) (mask : Image) (r : res Image) (name : string)
  : Prop :=
  ∃ img, r = Ok img ∧
    ∀ p, eval P img p = Ok [(name, None)] ∧
         ∀ mb m, eval P mask p = Ok [(mb, m)] →
                 eval P (maskCollections mask img) p = Ok [(name, None)].

(** The image is tagged on top of its one resampling step, which reads the
    clipped, converted result of a temporal reduction. *)
Definition reduced_then_resampled (ROI : Region) (img : Image) : Prop :=
  (∃ k v e', img = SetProp k v (Reproject "EPSG:4326" SCALE_M_PX (Clip ROI e')) ∧
             reprojections e' = 0%nat ∧ (0 < reductions e')%nat) ∧
  reprojections img = 1%nat ∧
  reduce_first img = true.

(** The Kelvin-to-Celsius chain of the LST builder on binary64 numbers. *)
Definition LST_celsius_binary64 (v : float) : float := (v * 0.02 - 273.15)%float.

(** ** The pixel counts of the singleNPP example (lines 232-241) *)

(** Whether band b of the image has a value at the pixel. *)
Definition valid_at (P : Provider) (img : Image) (b : string) (p : Pixel) : res bool :=
  v ← eval P img p;
  match band b v with
  | Some x => Ok (bool_decide (is_Some x))
  | None => Err (BandNotFound b)
  end.

(** image.reduceRegion({reducer: ee.Reducer.count(), scale: SCALE_M_PX,
    geometry}).get(b): the number of pixels of the geometry at which band b
    of the image has a value. *)
Definition reduceRegion_count (P : Provider) (geometry : Region) (b : string)
    (img : Image) : res nat :=
  flags ← List_map (valid_at P img b) geometry;
  Ok (length (List.filter (fun f : bool => f) flags)).

(** ** Lemmas on the error monad and on dates *)

Lemma List_map_cons {A B} (f : A → res B) x l :
  List_map f (x :: l) = y ← f x; ys ← List_map f l; Ok (y :: ys).
Proof. reflexivity. Qed.

Lemma Date_parse d t : EEDate.parse d = Some t → Date d = Ok t.
Proof. unfold Date. by intros ->. Qed.

Lemma window_parse d t :
  EEDate.parse d = Some t → window d = Ok (t, (t + days 16)%Z).
Proof. intros H. unfold window. by rewrite (Date_parse _ _ H). Qed.

Lemma windows_parse ds ts :
  anchors_at ds ts →
  List_map window ds = Ok (map (fun t => (t, (t + days 16)%Z)) ts).
Proof.
  induction 1 as [|d t ds ts Hd _ IH]; simpl; [done|].
  by rewrite (window_parse _ _ Hd); simpl; rewrite IH.
Qed.

Lemma List_get_first {A} (x : A) l : List_get (x :: l) 0 = Ok x.
Proof.
  unfold List_get. simpl length.
  replace (0 <? 0)%Z with false by done.
  replace (0 <? 0)%Z with false by done.
  destruct (Z.leb_spec (Z.of_nat (S (length l))) 0) as [H|H]; [lia|done].
Qed.

Lemma List_get_last {A} (l : list A) x : last l = Some x → List_get l (-1) = Ok x.
Proof.
  intros H. unfold List_get.
  replace (-1 <? 0)%Z with true by done.
  assert (Hlen : (0 < length l)%nat) by (destruct l; [done|simpl; lia]).
  destruct (Z.ltb_spec (Z.of_nat (length l) + -1) 0) as [H1|H1]; [lia|].
  destruct (Z.leb_spec (Z.of_nat (length l)) (Z.of_nat (length l) + -1)) as [H2|H2]; [lia|].
  simpl. replace (Z.to_nat (Z.of_nat (length l) + -1)) with (pred (length l)) by lia.
  rewrite last_lookup in H. by rewrite H.
Qed.

(** ** The period schedule *)

(** C1.  For the anchors of the script the schedule has exactly four windows
    for the accumulated sources, one starting at each anchor and ending 16
    days later, and the range the NDVI collection is filtered by runs from
    2018-01-01 to 2018-02-19, the last anchor plus one day. *)
Theorem schedule_of_the_script :
  ∃ sch, PeriodSchedule dates = Ok sch ∧
    length (periods sch) = 4%nat ∧
    Forall2 (fun d w => Date d = Ok (fst w) ∧ snd w = (fst w + days 16)%Z)
      dates (periods sch) ∧
    map (fun w => (EEDate.format (fst w), EEDate.format (snd w))) (periods sch)
      = [("2018-01-01", "2018-01-17"); ("2018-01-17", "2018-02-02");
         ("2018-02-02", "2018-02-18"); ("2018-02-18", "2018-03-06")]%string ∧
    Date "2018-01-01" = Ok (fst (nativeFilterRange sch)) ∧
    Date "2018-02-19" = Ok (snd (nativeFilterRange sch)) ∧
    List_get dates (-1) = Ok "2018-02-18"%string ∧
    Date "2018-02-18" = Ok (snd (nativeFilterRange sch) - days 1)%Z.
Proof.
  eexists. split; [vm_compute; reflexivity|].
  split; [reflexivity|].
  split; [repeat constructor|].
  repeat split; vm_compute; reflexivity.
Qed.

(** C5, the claim as stated fails: a single anchor, and two anchors in
    decreasing order, are both accepted. *)
Lemma schedule_accepts_short_and_unordered :
  ((length ["2018-01-01"%string] < 2)%nat ∧
   PeriodSchedule ["2018-01-01"%string]
   = Ok {| nativeFilterRange := (1514764800000, 1514851200000)%Z;
           periods := [(1514764800000, 1516147200000)%Z] |}) ∧
  (¬ strictly_increasing [1517529600000; 1514764800000]%Z ∧
   anchors_at ["2018-02-02"; "2018-01-01"]%string [1517529600000; 1514764800000]%Z ∧
   PeriodSchedule ["2018-02-02"; "2018-01-01"]%string
   = Ok {| nativeFilterRange := (1517529600000, 1514851200000)%Z;
           periods := [(1517529600000, 1518912000000)%Z;
                       (1514764800000, 1516147200000)%Z] |}).
Proof.
  split; split.
  - simpl. lia.
  - vm_compute. reflexivity.
  - simpl. lia.
  - split; [repeat constructor|vm_compute; reflexivity].
Qed.

(** C5, amended.  The schedule is built without any validation: for every
    list of at least one well-formed date, whatever its length and order, it
    is the range from the first anchor to the last anchor plus one day, and
    one 16-day window per anchor; the empty list fails on the provider's
    index lookup. *)
Theorem schedule_without_validation (ds : list string) (ts : list Z) (first final : Z) :
  anchors_at ds ts →
  head ts = Some first →
  last ts = Some final →
  PeriodSchedule ds
  = Ok {| nativeFilterRange := (first, (final + days 1)%Z);
          periods := map (fun t => (t, (t + days 16)%Z)) ts |}
  ∧ PeriodSchedule [] = Err (IndexOutOfBounds 0).
Proof.
  intros Hds Hfirst Hfinal. split; [|reflexivity].
  unfold PeriodSchedule.
  assert (Hstart : startDate ds = Ok first).
  { destruct Hds as [|d t ds ts Hd Hrest]; [discriminate|].
    simpl in Hfirst. inversion Hfirst; subst.
    unfold startDate. rewrite List_get_first. simpl. by apply Date_parse. }
  assert (Hend : endDate ds = Ok (final + days 1)%Z).
  { assert (∃ d, last ds = Some d ∧ EEDate.parse d = Some final) as (d & Hd & Hp).
    { clear Hfirst Hstart. induction Hds as [|d t ds ts Hd Hrest IH]; [discriminate|].
      destruct Hrest as [|d' t' ds' ts' Hd' Hrest'].
      - simpl in Hfinal. inversion Hfinal; subst. by exists d.
      - apply IH. exact Hfinal. }
    unfold endDate. rewrite (List_get_last _ _ Hd). simpl.
    by rewrite (Date_parse _ _ Hp). }
  rewrite Hstart, Hend. simpl. by rewrite (windows_parse _ _ Hds).
Qed.

Lemma schedule_without_validation_witness :
  PeriodSchedule ["2018-01-01"%string]
  = Ok {| nativeFilterRange := (1514764800000, (1514764800000 + days 1))%Z;
          periods := map (fun t => (t, (t + days 16)%Z)) [1514764800000%Z] |}
  ∧ PeriodSchedule [] = Err (IndexOutOfBounds 0).
Proof.
  apply (schedule_without_validation ["2018-01-01"%string] [1514764800000%Z]
           1514764800000 1514764800000).
  - repeat constructor.
  - reflexivity.
  - reflexivity.
Defined.

(** ** Lemmas on the reading of descriptions *)

(** Two canonical rationals are equal when they are as fractions. *)
Ltac qc_eq := apply Qc_is_canon; vm_compute; reflexivity.

Lemma band_stored (f : string → Value) b bs :
  b ∈ bs → band b (map (fun b' => (b', f b')) bs) = Some (f b).
Proof.
  induction bs as [|b' bs IH]; intros Hb; [by apply elem_of_nil in Hb|].
  simpl. destruct (String.eqb_spec b' b) as [->|Hne]; [done|].
  apply IH. apply elem_of_cons in Hb as [->|Hb]; [done|exact Hb].
Qed.

Lemma eval_images P bs srcs p :
  List_map (fun i => eval P i p) (map (Stored bs) srcs)
  = Ok (map (fun s => map (fun b => (b, pixel s b p)) bs) srcs).
Proof.
  induction srcs as [|s srcs IH]; [done|].
  simpl map. rewrite List_map_cons, IH. reflexivity.
Qed.

Lemma eval_reduce P r bs srcs p :
  eval P (Reduce r bs (map (Stored bs) srcs)) p
  = Ok (map (fun b => (b, reduce r (values srcs b p))) bs).
Proof.
  simpl eval. rewrite eval_images. simpl. f_equal.
  apply map_ext_in. intros b Hb. f_equal. f_equal.
  unfold values. rewrite map_map. apply map_ext. intros s.
  unfold band_value. rewrite band_stored; [done|].
  by apply list_elem_of_In.
Qed.

Lemma eval_rename P name e p n x :
  eval P e p = Ok [(n, x)] → eval P (Rename name e) p = Ok [(name, x)].
Proof. intros H. simpl. by rewrite H. Qed.

Lemma eval_select P b e p v x :
  eval P e p = Ok v → band b v = Some x → eval P (Select b e) p = Ok [(b, x)].
Proof. intros H Hb. simpl. rewrite H. simpl. by rewrite Hb. Qed.

Lemma eval_math P op e1 e2 p n x m y :
  eval P e1 p = Ok [(n, x)] → eval P e2 p = Ok [(m, y)] →
  eval P (BandMath op e1 e2) p = Ok [(n, apply_op P op x y)].
Proof. intros H1 H2. simpl. by rewrite H1, H2. Qed.

Lemma eval_const P op e (c : Qc) p n x :
  eval P e p = Ok [(n, x)] →
  eval P (BandMath op e c) p = Ok [(n, apply_op P op x (Some c))].
Proof. intros H. by apply (eval_math _ _ _ _ _ _ _ "constant"%string (Some c)). Qed.

Lemma eval_entry P ROI k v e p n x :
  eval P e (sampled P p) = Ok [(n, x)] →
  eval P (SetProp k v (Reproject "EPSG:4326" SCALE_M_PX (Clip ROI e))) p
  = Ok [(n, if inside (sampled P p) ROI then x else None)].
Proof.
  intros H. simpl. fold (sampled P p). rewrite H. simpl.
  by destruct (inside (sampled P p) ROI).
Qed.

Lemma eval_mask_one_band P mask e p mb m n x :
  eval P mask p = Ok [(mb, m)] → eval P e p = Ok [(n, x)] →
  eval P (UpdateMask mask e) p = Ok [(n, keep m x)].
Proof. intros Hm He. simpl. by rewrite Hm, He. Qed.

(** *** What the builders return *)

Lemma select_c_has P id b (c : Collection) :
  has_band P id b → c_bands c = c_bands (collections P id) →
  select_c b c = Ok {| c_bands := [b]; c_images := c_images c |}.
Proof.
  intros Hb Hc. unfold select_c. rewrite Hc.
  by rewrite bool_decide_eq_true_2.
Qed.

Lemma collectionLST_image_Ok P ROI d t :
  EEDate.parse d = Some t → has_band P "MODIS/061/MOD11A2" "LST_Day_1km" →
  collectionLST_image P ROI d
  = Ok (SetProp "date" d (Reproject "EPSG:4326" SCALE_M_PX (Clip ROI
         (BandMath Minus
            (BandMath Mul
               (Rename "LST"
                  (Reduce Mean ["LST_Day_1km"%string]
                     (map (Stored ["LST_Day_1km"%string])
                        (window_images P ROI "MODIS/061/MOD11A2" t (t + days 16)%Z))))
               (dec 2 100))
            (dec 27315 100))))).
Proof.
  intros Hd Hb. unfold collectionLST_image.
  rewrite (window_parse _ _ Hd). simpl.
  by rewrite (select_c_has P "MODIS/061/MOD11A2").
Qed.

Lemma collectionSOL_image_Ok P ROI d t :
  EEDate.parse d = Some t →
  has_band P "ECMWF/ERA5_LAND/HOURLY" "surface_solar_radiation_downwards_hourly" →
  collectionSOL_image P ROI d
  = Ok (SetProp "date" d (Reproject "EPSG:4326" SCALE_M_PX (Clip ROI
         (BandMath Div
            (Rename "SOL"
               (Reduce Sum ["surface_solar_radiation_downwards_hourly"%string]
                  (map (Stored ["surface_solar_radiation_downwards_hourly"%string])
                     (window_images P ROI "ECMWF/ERA5_LAND/HOURLY" t (t + days 16)%Z))))
            (dec 1000000 1))))).
Proof.
  intros Hd Hb. unfold collectionSOL_image.
  rewrite (window_parse _ _ Hd). simpl.
  by rewrite (select_c_has P "ECMWF/ERA5_LAND/HOURLY").
Qed.

Lemma collectionWe_image_Ok P ROI d t :
  EEDate.parse d = Some t →
  collectionWe_image P ROI d
  = Ok (SetProp "data" d (Reproject "EPSG:4326" SCALE_M_PX (Clip ROI
         (Rename "We"
            (BandMath Plus
               (BandMath Mul
                  (BandMath Div
                     (Select "ET" (imageSum16days P ROI t (t + days 16)%Z))
                     (Select "PET" (imageSum16days P ROI t (t + days 16)%Z)))
                  (dec 5 10))
               (dec 5 10)))))).
Proof. intros Hd. unfold collectionWe_image. by rewrite (window_parse _ _ Hd). Qed.

(** *** The value of an entry at a pixel *)

Lemma eval_LST P ROI d t p img :
  EEDate.parse d = Some t → has_band P "MODIS/061/MOD11A2" "LST_Day_1km" →
  collectionLST_image P ROI d = Ok img →
  eval P img p
  = Ok [("LST"%string,
         if inside (sampled P p) ROI
         then (fun v => v * dec 2 100 - dec 27315 100)
              <$> reduce Mean (values (window_images P ROI "MODIS/061/MOD11A2" t (t + days 16)%Z)
                                 "LST_Day_1km" (sampled P p))
         else None)].
Proof.
  intros Hd Hb Himg. rewrite (collectionLST_image_Ok _ _ _ _ Hd Hb) in Himg.
  inversion Himg; subst img; clear Himg.
  erewrite eval_entry.
  2:{ apply eval_const, eval_const. eapply eval_rename. rewrite eval_reduce. reflexivity. }
  by destruct (reduce Mean _).
Qed.

Lemma eval_SOL P ROI d t p img :
  EEDate.parse d = Some t →
  has_band P "ECMWF/ERA5_LAND/HOURLY" "surface_solar_radiation_downwards_hourly" →
  collectionSOL_image P ROI d = Ok img →
  eval P img p
  = Ok [("SOL"%string,
         if inside (sampled P p) ROI
         then reduce Sum (values (window_images P ROI "ECMWF/ERA5_LAND/HOURLY" t (t + days 16)%Z)
                            "surface_solar_radiation_downwards_hourly" (sampled P p))
              ≫= (fun v => divide_px P v (dec 1000000 1))
         else None)].
Proof.
  intros Hd Hb Himg. rewrite (collectionSOL_image_Ok _ _ _ _ Hd Hb) in Himg.
  inversion Himg; subst img; clear Himg.
  erewrite eval_entry.
  2:{ apply eval_const. eapply eval_rename. rewrite eval_reduce. reflexivity. }
  by destruct (reduce Sum _).
Qed.

Lemma eval_We P ROI d t p img :
  EEDate.parse d = Some t →
  has_band P "MODIS/006/MOD16A2" "ET" → has_band P "MODIS/006/MOD16A2" "PET" →
  collectionWe_image P ROI d = Ok img →
  eval P img p
  = Ok [("We"%string,
         if inside (sampled P p) ROI
         then apply_op P Plus
                (apply_op P Mul
                   (apply_op P Div
                      (reduce Sum (values (window_images_We P ROI t (t + days 16)%Z)
                                     "ET" (sampled P p)))
                      (reduce Sum (values (window_images_We P ROI t (t + days 16)%Z)
                                     "PET" (sampled P p))))
                   (Some (dec 5 10)))
                (Some (dec 5 10))
         else None)].
Proof.
  intros Hd HET HPET Himg. rewrite (collectionWe_image_Ok _ _ _ _ Hd) in Himg.
  inversion Himg; subst img; clear Himg.
  erewrite eval_entry; [reflexivity|].
  eapply eval_rename. apply eval_const, eval_const.
  eapply eval_math.
  - eapply eval_select; [apply eval_reduce|]. by apply (band_stored (fun b => reduce Sum _)).
  - eapply eval_select; [apply eval_reduce|]. by apply (band_stored (fun b => reduce Sum _)).
Qed.

Lemma entry_value_eq (n : string) (v : Value) (x y : Qc) :
  v = Some x → (x == y)%Q → Ok [(n, v)] = Ok [(n, Some y)].
Proof. intros -> H. by rewrite (Qc_is_canon _ _ H). Qed.

Lemma Some_eq (v : Value) (x y : Qc) : v = Some x → (x == y)%Q → v = Some y.
Proof. intros -> H. by rewrite (Qc_is_canon _ _ H). Qed.

(** Closed goals on the example provider. *)
Ltac by_evaluation :=
  lazymatch goal with
  | |- has_band _ _ _ => unfold has_band; vm_compute; repeat constructor
  | |- @eq (res _) _ (Ok [(_, Some _)]) =>
      eapply entry_value_eq; vm_compute; reflexivity
  | |- @eq (option Qc) _ (Some _) => eapply Some_eq; vm_compute; reflexivity
  | |- @eq Value _ (Some _) => eapply Some_eq; vm_compute; reflexivity
  | |- _ => vm_compute; reflexivity
  end.

(** ** The temperature conversion *)

(** C3.  The LST builder scales before it offsets: the value of an entry at
    a pixel inside the region is v * 0.02 - 273.15 for v the mean, over the
    images of the 16-day window, of the stored band; for v = 300 that is
    -267.15, which the other order, (v - 273.15) * 0.02, is not. *)
Theorem LST_scale_before_offset (P : Provider) (ROI : Region) (d : string) (t : Z)
    (p : Pixel) :
  EEDate.parse d = Some t →
  has_band P "MODIS/061/MOD11A2" "LST_Day_1km" →
  (∃ img, collectionLST_image P ROI d = Ok img ∧
     eval P img p
     = Ok [("LST"%string,
            if inside (sampled P p) ROI
            then (fun v => v * dec 2 100 - dec 27315 100)
                 <$> reduce Mean
                       (values (window_images P ROI "MODIS/061/MOD11A2" t (t + days 16)%Z)
                          "LST_Day_1km" (sampled P p))
            else None)])
  ∧ dec 300 1 * dec 2 100 - dec 27315 100 = dec (-26715) 100
  ∧ (dec 300 1 - dec 27315 100) * dec 2 100 ≠ dec (-26715) 100.
Proof.
  intros Hd Hb. split; [|split].
  - rewrite (collectionLST_image_Ok _ _ _ _ Hd Hb). eexists. split; [reflexivity|].
    apply (eval_LST _ _ d t); [done|done|].
    by apply collectionLST_image_Ok.
  - qc_eq.
  - intros H. apply (f_equal this) in H. vm_compute in H. discriminate H.
Qed.

(** On the example provider the mean of the first window is 300. *)
Lemma LST_scale_before_offset_witness :
  ∃ img, collectionLST_image Example.provider Example.ROI "2018-01-01" = Ok img ∧
    eval Example.provider img (0, 0)%Z = Ok [("LST"%string, Some (dec (-26715) 100))].
Proof.
  destruct (LST_scale_before_offset Example.provider Example.ROI "2018-01-01"
              1514764800000 (0, 0)%Z) as [(img & Himg & Hv) _].
  - reflexivity.
  - by_evaluation.
  - exists img. split; [exact Himg|]. rewrite Hv. by_evaluation.
Defined.

(** The same conversion of 300 on binary64 numbers gives the binary64 number
    written -267.15. *)
Lemma LST_celsius_binary64_300 : LST_celsius_binary64 300 = (-267.15)%float.
Proof. vm_compute. reflexivity. Qed.

(** ** The water-stress ratio *)

Lemma half_plus_half : dec 5 10 + dec 5 10 = 1.
Proof. qc_eq. Qed.

(** C4.  The We builder computes (ET sum / PET sum) * 0.5 + 0.5 at every
    pixel inside the region where both sums have a value and the PET sum is
    not 0 (the provider dividing exactly there); so the entry is 1 where the
    two sums are equal and 0.5 where the ET sum is 0. *)
Theorem We_ratio (P : Provider) (ROI : Region) (d : string) (t : Z) (p : Pixel)
    (n m : Qc) :
  EEDate.parse d = Some t →
  has_band P "MODIS/006/MOD16A2" "ET" →
  has_band P "MODIS/006/MOD16A2" "PET" →
  inside (sampled P p) ROI = true →
  reduce Sum (values (window_images_We P ROI t (t + days 16)%Z) "ET" (sampled P p)) = Some n →
  reduce Sum (values (window_images_We P ROI t (t + days 16)%Z) "PET" (sampled P p)) = Some m →
  m ≠ 0 →
  divide_px P n m = Some (n / m) →
  ∃ img, collectionWe_image P ROI d = Ok img ∧
    eval P img p = Ok [("We"%string, Some (n / m * dec 5 10 + dec 5 10))] ∧
    (n = m → eval P img p = Ok [("We"%string, Some 1)]) ∧
    (n = 0 → eval P img p = Ok [("We"%string, Some (dec 5 10))]).
Proof.
  intros Hd HET HPET Hin Hn Hm Hm0 Hdiv.
  destruct (collectionWe_image P ROI d) as [img|e] eqn:Himg;
    [|by rewrite (collectionWe_image_Ok _ _ _ _ Hd) in Himg].
  exists img. split; [done|].
  assert (Hv : eval P img p = Ok [("We"%string, Some (n / m * dec 5 10 + dec 5 10))]).
  { rewrite (eval_We _ _ d t _ _ Hd HET HPET Himg), Hin, Hn, Hm. simpl.
    by rewrite Hdiv. }
  split; [exact Hv|]. split.
  - intros ->. rewrite Hv. do 4 f_equal.
    unfold Qcdiv. rewrite Qcmult_inv_r by done.
    rewrite Qcmult_1_l. apply half_plus_half.
  - intros ->. rewrite Hv. do 4 f_equal.
    unfold Qcdiv. rewrite Qcmult_0_l, Qcmult_0_l. apply Qcplus_0_l.
Qed.

(** The first window of the example provider has ET = PET = 30. *)
Lemma We_ratio_witness :
  ∃ img, collectionWe_image Example.provider Example.ROI "2018-01-01" = Ok img ∧
    eval Example.provider img (0, 0)%Z
    = Ok [("We"%string, Some (Example.q 30 / Example.q 30 * dec 5 10 + dec 5 10))] ∧
    (Example.q 30 = Example.q 30 →
     eval Example.provider img (0, 0)%Z = Ok [("We"%string, Some 1)]) ∧
    (Example.q 30 = 0 →
     eval Example.provider img (0, 0)%Z = Ok [("We"%string, Some (dec 5 10))]).
Proof.
  apply (We_ratio Example.provider Example.ROI "2018-01-01" 1514764800000 (0, 0)%Z
           (Example.q 30) (Example.q 30)).
  - reflexivity.
  - by_evaluation.
  - by_evaluation.
  - reflexivity.
  - by_evaluation.
  - by_evaluation.
  - intros H. apply (f_equal this) in H. vm_compute in H. discriminate H.
  - by_evaluation.
Defined.

(** C10.  The We builder divides the ET sum by the PET sum with no guard: at
    a pixel inside the region where the PET sum is 0, the entry is whatever
    the provider's division of the ET sum by 0 gives, carried through
    * 0.5 + 0.5, and it has a value exactly when that division has one. *)
Theorem We_zero_denominator (P : Provider) (ROI : Region) (d : string) (t : Z)
    (p : Pixel) (n : Qc) :
  EEDate.parse d = Some t →
  has_band P "MODIS/006/MOD16A2" "ET" →
  has_band P "MODIS/006/MOD16A2" "PET" →
  inside (sampled P p) ROI = true →
  reduce Sum (values (window_images_We P ROI t (t + days 16)%Z) "ET" (sampled P p)) = Some n →
  reduce Sum (values (window_images_We P ROI t (t + days 16)%Z) "PET" (sampled P p)) = Some 0 →
  ∃ img v, collectionWe_image P ROI d = Ok img ∧
    eval P img p = Ok [("We"%string, v)] ∧
    v = (fun r => r * dec 5 10 + dec 5 10) <$> divide_px P n 0 ∧
    (is_Some v ↔ is_Some (divide_px P n 0)).
Proof.
  intros Hd HET HPET Hin Hn Hm.
  destruct (collectionWe_image P ROI d) as [img|e] eqn:Himg;
    [|by rewrite (collectionWe_image_Ok _ _ _ _ Hd) in Himg].
  exists img, ((fun r => r * dec 5 10 + dec 5 10) <$> divide_px P n 0).
  split; [done|]. split; [|split; [done|]].
  - rewrite (eval_We _ _ d t _ _ Hd HET HPET Himg), Hin, Hn, Hm. simpl.
    by destruct (divide_px P n 0).
  - by rewrite fmap_is_Some.
Qed.

(** In the third window of the example provider the PET sum is 0: a provider
    whose division by 0 gives no data leaves the pixel without data, one
    whose division by 0 gives 0 makes it 0.5. *)
Lemma We_zero_denominator_witness :
  (∃ img v, collectionWe_image Example.provider Example.ROI "2018-02-02" = Ok img ∧
     eval Example.provider img (0, 0)%Z = Ok [("We"%string, v)] ∧
     v = (fun r => r * dec 5 10 + dec 5 10) <$> Example.div_nodata (Example.q 7) 0 ∧
     (is_Some v ↔ is_Some (Example.div_nodata (Example.q 7) 0))) ∧
  (∃ img v, collectionWe_image Example.provider_div_zero Example.ROI "2018-02-02" = Ok img ∧
     eval Example.provider_div_zero img (0, 0)%Z = Ok [("We"%string, v)] ∧
     v = (fun r => r * dec 5 10 + dec 5 10) <$> Example.div_zero (Example.q 7) 0 ∧
     (is_Some v ↔ is_Some (Example.div_zero (Example.q 7) 0))).
Proof.
  split.
  - apply (We_zero_denominator Example.provider Example.ROI "2018-02-02"
             1517529600000 (0, 0)%Z (Example.q 7)).
    all: by_evaluation.
  - apply (We_zero_denominator Example.provider_div_zero Example.ROI "2018-02-02"
             1517529600000 (0, 0)%Z (Example.q 7)).
    all: by_evaluation.
Defined.

(** ** The date property *)

(** The LST and SOL builders set [date], as their last step, to the anchor
    they were given; the NDVI builder sets it to the day of the image. *)
Lemma collectionLST_sets_date P ROI d t :
  EEDate.parse d = Some t → has_band P "MODIS/061/MOD11A2" "LST_Day_1km" →
  ∃ e, collectionLST_image P ROI d = Ok (SetProp "date" d (Reproject "EPSG:4326" SCALE_M_PX e)) ∧
    props (SetProp "date" d (Reproject "EPSG:4326" SCALE_M_PX e)) !! "date"%string = Some d.
Proof.
  intros Hd Hb. rewrite (collectionLST_image_Ok _ _ _ _ Hd Hb).
  eexists. split; [reflexivity|]. simpl. apply lookup_insert_eq.
Qed.

Lemma collectionSOL_sets_date P ROI d t :
  EEDate.parse d = Some t →
  has_band P "ECMWF/ERA5_LAND/HOURLY" "surface_solar_radiation_downwards_hourly" →
  ∃ e, collectionSOL_image P ROI d = Ok (SetProp "date" d (Reproject "EPSG:4326" SCALE_M_PX e)) ∧
    props (SetProp "date" d (Reproject "EPSG:4326" SCALE_M_PX e)) !! "date"%string = Some d.
Proof.
  intros Hd Hb. rewrite (collectionSOL_image_Ok _ _ _ _ Hd Hb).
  eexists. split; [reflexivity|]. simpl. apply lookup_insert_eq.
Qed.

Lemma collectionNDVI_sets_date ROI bs s :
  ∃ e, collectionNDVI_image ROI (Stored bs s)
       = Ok (SetProp "date" (EEDate.format (time_start s))
               (Reproject "EPSG:4326" SCALE_M_PX e)) ∧
    props (SetProp "date" (EEDate.format (time_start s))
             (Reproject "EPSG:4326" SCALE_M_PX e)) !! "date"%string
    = Some (EEDate.format (time_start s)).
Proof. eexists. split; [reflexivity|]. simpl. apply lookup_insert_eq. Qed.

(** C2, on the code.  The We builder ends, after clipping and reprojection,
    by setting a property named [data] to the anchor it was given: its
    image has no property [date], before the mask and after it. *)
Theorem collectionWe_sets_data (P : Provider) (ROI : Region) (mask : Image)
    (d : string) (t : Z) :
  EEDate.parse d = Some t →
  ∃ e, collectionWe_image P ROI d
       = Ok (SetProp "data" d (Reproject "EPSG:4326" SCALE_M_PX (Clip ROI e))) ∧
    props (SetProp "data" d (Reproject "EPSG:4326" SCALE_M_PX (Clip ROI e)))
      = {["data"%string := d]} ∧
    props (SetProp "data" d (Reproject "EPSG:4326" SCALE_M_PX (Clip ROI e)))
      !! "date"%string = None ∧
    props (maskCollections mask
             (SetProp "data" d (Reproject "EPSG:4326" SCALE_M_PX (Clip ROI e))))
      !! "date"%string = None.
Proof.
  intros Hd. rewrite (collectionWe_image_Ok _ _ _ _ Hd).
  eexists. split; [reflexivity|]. simpl.
  split; [done|].
  split; by rewrite lookup_insert_ne, lookup_empty.
Qed.

Lemma collectionWe_sets_data_witness :
  ∃ e, collectionWe_image Example.provider Example.ROI "2018-01-01"
       = Ok (SetProp "data" "2018-01-01" (Reproject "EPSG:4326" SCALE_M_PX (Clip Example.ROI e))) ∧
    props (SetProp "data" "2018-01-01" (Reproject "EPSG:4326" SCALE_M_PX (Clip Example.ROI e)))
      = {["data"%string := "2018-01-01"%string]} ∧
    props (SetProp "data" "2018-01-01" (Reproject "EPSG:4326" SCALE_M_PX (Clip Example.ROI e)))
      !! "date"%string = None ∧
    props (maskCollections Example.soybeanMask
             (SetProp "data" "2018-01-01"
                (Reproject "EPSG:4326" SCALE_M_PX (Clip Example.ROI e))))
      !! "date"%string = None.
Proof.
  apply (collectionWe_sets_data Example.provider Example.ROI Example.soybeanMask
           "2018-01-01" 1514764800000).
  reflexivity.
Defined.

(** ** The mask *)

Lemma keep_idempotent m x : keep m (keep m x) = keep m x.
Proof. destruct m as [w|]; simpl; [|done]. by destruct (decide (w = 0)). Qed.

Lemma mask_zip_idempotent (mv v : Bands) :
  zip_with (fun nm nx => (fst nx, keep (snd nm) (snd nx))) mv
    (zip_with (fun nm nx => (fst nx, keep (snd nm) (snd nx))) mv v)
  = zip_with (fun nm nx => (fst nx, keep (snd nm) (snd nx))) mv v.
Proof.
  revert v. induction mv as [|nm mv IH]; intros [|nx v]; simpl; try done.
  by rewrite keep_idempotent, IH.
Qed.

Lemma mask_bands_many (mv v : Bands) :
  length mv ≠ 1%nat →
  mask_bands mv v
  = if (length mv =? length v)%nat
    then Ok (zip_with (fun nm nx => (fst nx, keep (snd nm) (snd nx))) mv v)
    else Err (BandCountMismatch (length mv) (length v)).
Proof. by destruct mv as [|[n m] [|nm' mv]]. Qed.

Lemma mask_bands_idempotent (mv v v' : Bands) :
  mask_bands mv v = Ok v' → mask_bands mv v' = Ok v'.
Proof.
  destruct (decide (length mv = 1%nat)) as [Hone|Hmany].
  - destruct mv as [|[n m] [|nm' mv]]; try discriminate Hone.
    simpl. intros [= <-]. f_equal. rewrite map_map. apply map_ext.
    intros [b x]. simpl. by rewrite keep_idempotent.
  - rewrite !mask_bands_many by done.
    destruct (length mv =? length v)%nat eqn:Hlen; [|discriminate].
    apply Nat.eqb_eq in Hlen. intros H. injection H as <-.
    rewrite length_zip_with, <- Hlen, Nat.min_id, Nat.eqb_refl.
    f_equal. apply mask_zip_idempotent.
Qed.

(** C6.  Masking a masked image again with the same mask changes neither its
    value at any pixel (nor the error, when the masked image has none) nor
    its properties. *)
Theorem maskCollections_idempotent (P : Provider) (soybeanMask : Image) (img : Image)
    (p : Pixel) :
  eval P (maskCollections soybeanMask (maskCollections soybeanMask img)) p
  = eval P (maskCollections soybeanMask img) p
  ∧ props (maskCollections soybeanMask (maskCollections soybeanMask img))
    = props (maskCollections soybeanMask img).
Proof.
  split; [|reflexivity].
  unfold maskCollections, updateMask. simpl.
  destruct (eval P soybeanMask p) as [mv|e]; simpl; [|done].
  destruct (eval P img p) as [v|e]; simpl; [|done].
  destruct (mask_bands mv v) as [v'|e] eqn:Hv; simpl; [|done].
  by apply mask_bands_idempotent in Hv.
Qed.

(** ** The order of reduction and reprojection *)

Lemma stored_reprojections bs srcs :
  sum_list (map reprojections (map (Stored bs) srcs)) = 0%nat.
Proof. induction srcs as [|s srcs IH]; [done|exact IH]. Qed.

Lemma stored_reductions bs srcs :
  sum_list (map reductions (map (Stored bs) srcs)) = 0%nat.
Proof. induction srcs as [|s srcs IH]; [done|exact IH]. Qed.

Lemma stored_reduce_first bs srcs :
  forallb (fun i => (reprojections i =? 0)%nat && reduce_first i) (map (Stored bs) srcs)
  = true.
Proof. induction srcs as [|s srcs IH]; [done|exact IH]. Qed.

Lemma entry_reduced_then_resampled ROI k v e :
  reprojections e = 0%nat → (0 < reductions e)%nat → reduce_first e = true →
  reduced_then_resampled ROI (SetProp k v (Reproject "EPSG:4326" SCALE_M_PX (Clip ROI e))).
Proof.
  intros Hp Hr Hf. split; [|split].
  - by exists k, v, e.
  - simpl. by rewrite Hp.
  - simpl. rewrite Hf, andb_true_r. by apply Nat.ltb_lt.
Qed.

(** C8.  Every entry of the LST, SOL and We series is exactly the tagged,
    once reprojected, clipped conversion of the reduction (mean or sum) over
    the stored images of its own window: for LST, set(reproject(clip(
    subtract(multiply(rename(mean(window images)), 0.02), 273.15)))); for
    SOL, set(reproject(clip(divide(rename(sum(window images)), 1000000))));
    for We, set(reproject(clip(rename(add(multiply(divide(ET, PET), 0.5),
    0.5))))) with ET and PET selected from the sum of the window images.  It
    has exactly one resampling step, which reads the reduced image, and the
    reduction reads no resampled image. *)
Theorem reduction_before_reprojection (P : Provider) (ROI : Region) (d : string) (t : Z) :
  EEDate.parse d = Some t →
  has_band P "MODIS/061/MOD11A2" "LST_Day_1km" →
  has_band P "ECMWF/ERA5_LAND/HOURLY" "surface_solar_radiation_downwards_hourly" →
  (∃ img, collectionLST_image P ROI d = Ok img ∧
     img = SetProp "date" d (Reproject "EPSG:4326" SCALE_M_PX (Clip ROI
             (BandMath Minus
                (BandMath Mul
                   (Rename "LST"
                      (Reduce Mean ["LST_Day_1km"%string]
                         (map (Stored ["LST_Day_1km"%string])
                            (window_images P ROI "MODIS/061/MOD11A2" t (t + days 16)%Z))))
                   (Constant (dec 2 100)))
                (Constant (dec 27315 100))))) ∧
     reduced_then_resampled ROI img) ∧
  (∃ img, collectionSOL_image P ROI d = Ok img ∧
     img = SetProp "date" d (Reproject "EPSG:4326" SCALE_M_PX (Clip ROI
             (BandMath Div
                (Rename "SOL"
                   (Reduce Sum ["surface_solar_radiation_downwards_hourly"%string]
                      (map (Stored ["surface_solar_radiation_downwards_hourly"%string])
                         (window_images P ROI "ECMWF/ERA5_LAND/HOURLY" t (t + days 16)%Z))))
                (Constant (dec 1000000 1))))) ∧
     reduced_then_resampled ROI img) ∧
  (∃ img, collectionWe_image P ROI d = Ok img ∧
     img = SetProp "data" d (Reproject "EPSG:4326" SCALE_M_PX (Clip ROI
             (Rename "We"
                (BandMath Plus
                   (BandMath Mul
                      (BandMath Div
                         (Select "ET"
                            (Reduce Sum (c_bands (collections P "MODIS/006/MOD16A2"))
                               (map (Stored (c_bands (collections P "MODIS/006/MOD16A2")))
                                  (window_images_We P ROI t (t + days 16)%Z))))
                         (Select "PET"
                            (Reduce Sum (c_bands (collections P "MODIS/006/MOD16A2"))
                               (map (Stored (c_bands (collections P "MODIS/006/MOD16A2")))
                                  (window_images_We P ROI t (t + days 16)%Z)))))
                      (Constant (dec 5 10)))
                   (Constant (dec 5 10)))))) ∧
     reduced_then_resampled ROI img).
Proof.
  intros Hd HLST HSOL. split; [|split].
  - rewrite (collectionLST_image_Ok _ _ _ _ Hd HLST).
    eexists. split; [reflexivity|]. split; [reflexivity|].
    apply entry_reduced_then_resampled;
      cbn [reprojections reductions reduce_first];
      rewrite ?stored_reprojections, ?stored_reductions, ?stored_reduce_first;
      simpl; solve [lia | done].
  - rewrite (collectionSOL_image_Ok _ _ _ _ Hd HSOL).
    eexists. split; [reflexivity|]. split; [reflexivity|].
    apply entry_reduced_then_resampled;
      cbn [reprojections reductions reduce_first];
      rewrite ?stored_reprojections, ?stored_reductions, ?stored_reduce_first;
      simpl; solve [lia | done].
  - rewrite (collectionWe_image_Ok _ _ _ _ Hd).
    eexists. split; [reflexivity|]. split; [reflexivity|].
    unfold imageSum16days, sum, images.
    apply entry_reduced_then_resampled;
      cbn [reprojections reductions reduce_first];
      rewrite ?stored_reprojections, ?stored_reductions, ?stored_reduce_first;
      simpl; solve [lia | done].
Qed.

(** On the example provider, for the first anchor: the three entries are
    these trees over the images the example stores in the first window. *)
Lemma reduction_before_reprojection_witness :
  (∃ img, collectionLST_image Example.provider Example.ROI "2018-01-01" = Ok img ∧
     img = SetProp "date" "2018-01-01" (Reproject "EPSG:4326" SCALE_M_PX (Clip Example.ROI
             (BandMath Minus
                (BandMath Mul
                   (Rename "LST"
                      (Reduce Mean ["LST_Day_1km"%string]
                         (map (Stored ["LST_Day_1km"%string])
                            [Example.flat "2018-01-01"
                               [("LST_Day_1km"%string, Some (Example.q 290))];
                             Example.flat "2018-01-09"
                               [("LST_Day_1km"%string, Some (Example.q 310))]])))
                   (Constant (dec 2 100)))
                (Constant (dec 27315 100))))) ∧
     reduced_then_resampled Example.ROI img) ∧
  (∃ img, collectionSOL_image Example.provider Example.ROI "2018-01-01" = Ok img ∧
     reprojections img = 1%nat ∧ reductions img = 1%nat) ∧
  (∃ img, collectionWe_image Example.provider Example.ROI "2018-01-01" = Ok img ∧
     reprojections img = 1%nat ∧ reductions img = 2%nat).
Proof.
  destruct (reduction_before_reprojection Example.provider Example.ROI "2018-01-01"
              1514764800000) as (HLST & HSOL & HWe).
  - reflexivity.
  - by_evaluation.
  - by_evaluation.
  - split; [|split].
    + destruct HLST as (img & Himg & -> & Hshape).
      eexists. split; [exact Himg|]. split; [|exact Hshape].
      vm_compute. reflexivity.
    + destruct HSOL as (img & Himg & -> & _).
      eexists. split; [exact Himg|]. split; vm_compute; reflexivity.
    + destruct HWe as (img & Himg & -> & _).
      eexists. split; [exact Himg|]. split; vm_compute; reflexivity.
Defined.

(** The NDVI images, which are not reduced, are resampled all the same. *)
Lemma collectionNDVI_not_reduced ROI bs s img :
  collectionNDVI_image ROI (Stored bs s) = Ok img →
  reprojections img = 1%nat ∧ reductions img = 0%nat.
Proof. intros [= <-]. by split. Qed.

(** ** Windows without images *)

Lemma keep_no_data m : keep m None = None.
Proof. destruct m as [w|]; simpl; [|done]. by destruct (decide (w = 0)). Qed.

Lemma no_data_entry_of_eval P mask img name :
  (∀ p, eval P img p = Ok [(name, None)]) → no_data_entry P mask (Ok img) name.
Proof.
  intros H. exists img. split; [done|]. intros p. split; [apply H|].
  intros mb m Hm. unfold maskCollections, updateMask.
  rewrite (eval_mask_one_band _ _ _ _ _ _ _ _ Hm (H p)). by rewrite keep_no_data.
Qed.

Lemma List_map_all_Ok {A B} (f : A → res B) l :
  Forall (fun x => is_Ok (f x)) l → ∃ l', List_map f l = Ok l' ∧ length l' = length l.
Proof.
  induction 1 as [|x l [y Hy] _ (ys & Hys & Hlen)]; [by exists []|].
  exists (y :: ys). rewrite List_map_cons, Hy. simpl. rewrite Hys. simpl. by rewrite Hlen.
Qed.

Lemma anchors_all (f : string → res Image) ds ts :
  anchors_at ds ts → (∀ d t, EEDate.parse d = Some t → is_Ok (f d)) →
  Forall (fun d => is_Ok (f d)) ds.
Proof. intros Hds Hf. induction Hds as [|d t ds ts Hd _ IH]; constructor; eauto. Qed.

(** C9.  A window without any stored image raises nothing: the LST, SOL and
    We builders return, for its period, an image without data at every
    pixel, which stays without data under the mask; and each series has one
    entry per anchor, whatever the windows contain. *)
Theorem coverage_gap_is_no_data (P : Provider) (ROI : Region) (soybeanMask : Image)
    (d : string) (t : Z) (ds : list string) (ts : list Z) :
  EEDate.parse d = Some t →
  anchors_at ds ts →
  has_band P "MODIS/061/MOD11A2" "LST_Day_1km" →
  has_band P "ECMWF/ERA5_LAND/HOURLY" "surface_solar_radiation_downwards_hourly" →
  has_band P "MODIS/006/MOD16A2" "ET" →
  has_band P "MODIS/006/MOD16A2" "PET" →
  (window_images P ROI "MODIS/061/MOD11A2" t (t + days 16)%Z = [] →
   no_data_entry P soybeanMask (collectionLST_image P ROI d) "LST") ∧
  (window_images P ROI "ECMWF/ERA5_LAND/HOURLY" t (t + days 16)%Z = [] →
   no_data_entry P soybeanMask (collectionSOL_image P ROI d) "SOL") ∧
  (window_images_We P ROI t (t + days 16)%Z = [] →
   no_data_entry P soybeanMask (collectionWe_image P ROI d) "We") ∧
  (∃ lst sol we,
     collectionLST P ROI ds = Ok lst ∧ length lst = length ds ∧
     collectionSOL P ROI ds = Ok sol ∧ length sol = length ds ∧
     collectionWe P ROI ds = Ok we ∧ length we = length ds).
Proof.
  intros Hd Hds HLST HSOL HET HPET. split; [|split; [|split]].
  - intros Hgap.
    destruct (collectionLST_image P ROI d) as [img|e] eqn:Himg;
      [|by rewrite (collectionLST_image_Ok _ _ _ _ Hd HLST) in Himg].
    apply no_data_entry_of_eval. intros p.
    rewrite (eval_LST _ _ d t _ _ Hd HLST Himg), Hgap. simpl.
    by destruct (inside _ _).
  - intros Hgap.
    destruct (collectionSOL_image P ROI d) as [img|e] eqn:Himg;
      [|by rewrite (collectionSOL_image_Ok _ _ _ _ Hd HSOL) in Himg].
    apply no_data_entry_of_eval. intros p.
    rewrite (eval_SOL _ _ d t _ _ Hd HSOL Himg), Hgap. simpl.
    by destruct (inside _ _).
  - intros Hgap.
    destruct (collectionWe_image P ROI d) as [img|e] eqn:Himg;
      [|by rewrite (collectionWe_image_Ok _ _ _ _ Hd) in Himg].
    apply no_data_entry_of_eval. intros p.
    rewrite (eval_We _ _ d t _ _ Hd HET HPET Himg), Hgap. simpl.
    by destruct (inside _ _).
  - destruct (List_map_all_Ok (collectionLST_image P ROI) ds) as (lst & Hlst & Hl1).
    { apply (anchors_all _ _ _ Hds). intros d' t' Hd'.
      rewrite (collectionLST_image_Ok _ _ _ _ Hd' HLST). by eexists. }
    destruct (List_map_all_Ok (collectionSOL_image P ROI) ds) as (sol & Hsol & Hl2).
    { apply (anchors_all _ _ _ Hds). intros d' t' Hd'.
      rewrite (collectionSOL_image_Ok _ _ _ _ Hd' HSOL). by eexists. }
    destruct (List_map_all_Ok (collectionWe_image P ROI) ds) as (we & Hwe & Hl3).
    { apply (anchors_all _ _ _ Hds). intros d' t' Hd'.
      rewrite (collectionWe_image_Ok _ _ _ _ Hd'). by eexists. }
    by exists lst, sol, we.
Qed.

(** The example provider stores no image of any collection in the window of
    2018-02-18. *)
Lemma coverage_gap_is_no_data_witness :
  no_data_entry Example.provider Example.soybeanMask
    (collectionLST_image Example.provider Example.ROI "2018-02-18") "LST" ∧
  no_data_entry Example.provider Example.soybeanMask
    (collectionSOL_image Example.provider Example.ROI "2018-02-18") "SOL" ∧
  no_data_entry Example.provider Example.soybeanMask
    (collectionWe_image Example.provider Example.ROI "2018-02-18") "We" ∧
  (∃ lst sol we,
     collectionLST Example.provider Example.ROI dates = Ok lst ∧ length lst = length dates ∧
     collectionSOL Example.provider Example.ROI dates = Ok sol ∧ length sol = length dates ∧
     collectionWe Example.provider Example.ROI dates = Ok we ∧ length we = length dates).
Proof.
  destruct (coverage_gap_is_no_data Example.provider Example.ROI Example.soybeanMask
              "2018-02-18" 1518912000000 dates
              [1514764800000; 1516147200000; 1517529600000; 1518912000000]%Z)
    as (HLST & HSOL & HWe & Hlen).
  - reflexivity.
  - repeat constructor.
  - by_evaluation.
  - by_evaluation.
  - by_evaluation.
  - by_evaluation.
  - split; [apply HLST; by_evaluation|].
    split; [apply HSOL; by_evaluation|].
    split; [apply HWe; by_evaluation|exact Hlen].
Defined.

(** ** The call of collectionNPP *)

Lemma computeNPP_collectionNPP_aligned (f : Image → Image → Image → Image → Qc → Qc → Image)
    (ndvi lst sol we : list Image) (topt luemax : Qc) (N : nat) :
  length ndvi = N → length lst = N → length sol = N → length we = N →
  length (computeNPP_collectionNPP f ndvi lst sol we topt luemax) = N ∧
  ∀ i n l s w,
    ndvi !! i = Some n → lst !! i = Some l → sol !! i = Some s → we !! i = Some w →
    computeNPP_collectionNPP f ndvi lst sol we topt luemax !! i
    = Some (f n l s w topt luemax).
Proof.
  revert lst sol we N.
  induction ndvi as [|n0 ndvi IH]; intros [|l0 lst] [|s0 sol] [|w0 we] N H1 H2 H3 H4;
    simpl in *; try lia.
  - split; [done|]. intros i n l s w Hn. by rewrite lookup_nil in Hn.
  - destruct N as [|N]; [lia|].
    destruct (IH lst sol we N) as [Hlen Hnth]; try lia.
    split; [by rewrite Hlen|].
    intros [|i] n l s w Hn Hl Hs Hw; simpl in *.
    + by inversion Hn; inversion Hl; inversion Hs; inversion Hw; subst.
    + by apply Hnth.
Qed.

(** C7, the claim as stated fails: with NDVI composites at two of the four
    anchors the script calls collectionNPP on series of 2, 4, 4 and 4 images,
    and raises nothing of its own. *)
Lemma collectionNPP_called_on_unequal_series :
  ∃ ins, masked_inputs Example.provider_short_NDVI Example.ROI Example.soybeanMask dates
         = Ok ins ∧
    length (in_NDVI ins) = 2%nat ∧ length (in_LST ins) = 4%nat ∧
    length (in_SOL ins) = 4%nat ∧ length (in_We ins) = 4%nat ∧
    collectionNPP Example.singleNPP Example.provider_short_NDVI Example.ROI
      Example.soybeanMask dates
    = Ok (computeNPP_collectionNPP Example.singleNPP
            (in_NDVI ins) (in_LST ins) (in_SOL ins) (in_We ins) Topt LUEmax).
Proof.
  eexists. split; [vm_compute; reflexivity|].
  repeat split; vm_compute; reflexivity.
Qed.

(** C7, amended.  The script checks no lengths: whatever series the builders
    and the mask give, it calls collectionNPP on them with Topt and LUEmax
    and returns its result; when the four series have N images each, that
    result has N images, the i-th being the NPP of the i-th NDVI, LST, SOL
    and We images. *)
Theorem collectionNPP_without_length_check
    (singleNPP : Image → Image → Image → Image → Qc → Qc → Image)
    (P : Provider) (ROI : Region) (soybeanMask : Image) (ds : list string)
    (ins : Inputs) (N : nat) :
  masked_inputs P ROI soybeanMask ds = Ok ins →
  collectionNPP singleNPP P ROI soybeanMask ds
  = Ok (computeNPP_collectionNPP singleNPP
          (in_NDVI ins) (in_LST ins) (in_SOL ins) (in_We ins) Topt LUEmax)
  ∧ (length (in_NDVI ins) = N → length (in_LST ins) = N →
     length (in_SOL ins) = N → length (in_We ins) = N →
     length (computeNPP_collectionNPP singleNPP
               (in_NDVI ins) (in_LST ins) (in_SOL ins) (in_We ins) Topt LUEmax) = N ∧
     ∀ i n l s w,
       in_NDVI ins !! i = Some n → in_LST ins !! i = Some l →
       in_SOL ins !! i = Some s → in_We ins !! i = Some w →
       computeNPP_collectionNPP singleNPP
         (in_NDVI ins) (in_LST ins) (in_SOL ins) (in_We ins) Topt LUEmax !! i
       = Some (singleNPP n l s w Topt LUEmax)).
Proof.
  intros Hins. split.
  - unfold collectionNPP. by rewrite Hins.
  - apply computeNPP_collectionNPP_aligned.
Qed.

(** With an NDVI composite at every anchor the four series have 4 images. *)
Lemma collectionNPP_without_length_check_witness :
  ∃ ins, masked_inputs Example.provider Example.ROI Example.soybeanMask dates = Ok ins ∧
    collectionNPP Example.singleNPP Example.provider Example.ROI Example.soybeanMask dates
    = Ok (computeNPP_collectionNPP Example.singleNPP
            (in_NDVI ins) (in_LST ins) (in_SOL ins) (in_We ins) Topt LUEmax) ∧
    length (computeNPP_collectionNPP Example.singleNPP
              (in_NDVI ins) (in_LST ins) (in_SOL ins) (in_We ins) Topt LUEmax) = 4%nat.
Proof.
  destruct (masked_inputs Example.provider Example.ROI Example.soybeanMask dates)
    as [ins|e] eqn:Hins; [|vm_compute in Hins; discriminate Hins].
  exists ins. split; [reflexivity|].
  destruct (collectionNPP_without_length_check Example.singleNPP Example.provider
              Example.ROI Example.soybeanMask dates ins 4 Hins) as [Hcall Hlen].
  split; [exact Hcall|].
  apply Hlen; (apply (f_equal (fun r => match r with Ok i => Some i | Err _ => None end)) in Hins;
               vm_compute in Hins; injection Hins as <-; reflexivity).
Defined.

(** * Further properties of the script *)

(** ** Lemmas on lists of results *)

Lemma List_map_Forall2 {A B} (f : A → res B) l l' :
  List_map f l = Ok l' → Forall2 (fun x y => f x = Ok y) l l'.
Proof.
  revert l'. induction l as [|x l IH]; intros l' H.
  - injection H as <-. constructor.
  - rewrite List_map_cons in H.
    destruct (f x) as [y|] eqn:Hx; simpl in H; [|discriminate].
    destruct (List_map f l) as [ys|]; simpl in H; [|discriminate].
    injection H as <-. constructor; [done|by apply IH].
Qed.

Lemma List_map_total {A B C} (f : B → res C) (h : A → B) (g : A → C) l :
  (∀ x, f (h x) = Ok (g x)) → List_map f (map h l) = Ok (map g l).
Proof.
  intros Hf. induction l as [|x l IH]; [done|].
  simpl map. by rewrite List_map_cons, Hf, IH.
Qed.

Lemma filter_filter_comm {A} (f g : A → bool) l :
  List.filter f (List.filter g l) = List.filter g (List.filter f l).
Proof.
  induction l as [|x l IH]; [done|]. simpl.
  destruct (g x) eqn:Hg, (f x) eqn:Hf; simpl; rewrite ?Hg, ?Hf, IH; done.
Qed.

Lemma startDate_anchors ds ts first :
  anchors_at ds ts → head ts = Some first → startDate ds = Ok first.
Proof.
  intros [|d t ds' ts' Hd _] Hfirst; [discriminate|].
  injection Hfirst as <-. unfold startDate. rewrite List_get_first. simpl.
  by apply Date_parse.
Qed.

Lemma endDate_anchors ds ts final :
  anchors_at ds ts → last ts = Some final → endDate ds = Ok (final + days 1)%Z.
Proof.
  intros Hds Hfinal.
  assert (∃ d, last ds = Some d ∧ EEDate.parse d = Some final) as (d & Hd & Hp).
  { induction Hds as [|d t ds ts Hd Hrest IH]; [discriminate|].
    destruct Hrest as [|d' t' ds' ts' Hd' Hrest'].
    - injection Hfinal as <-. by exists d.
    - by apply IH. }
  unfold endDate. rewrite (List_get_last _ _ Hd). simpl.
  by rewrite (Date_parse _ _ Hp).
Qed.

(** ** The windows *)

(** The images a builder reads for a window are the stored images of the
    collection whose footprint meets the region and whose time lies in the
    window, its start included and its end excluded. *)
Lemma window_images_membership (P : Provider) (ROI : Region) (id : string)
    (s e : Z) (img : StoredImage) :
  In img (window_images P ROI id s e) ↔
  In img (c_images (collections P id)) ∧
  intersects (footprint img) ROI = true ∧
  (s ≤ time_start img < e)%Z.
Proof.
  unfold window_images, filterDate, filterBounds, ImageCollection. simpl.
  rewrite !filter_In, andb_true_iff, Z.leb_le, Z.ltb_lt. tauto.
Qed.

(** X1.  The We builder filters by date and then by bounds, the LST and SOL
    builders by bounds and then by date: both orders read the same stored
    images, in the same order. *)
Theorem We_window_same_images (P : Provider) (ROI : Region) (s e : Z) :
  window_images_We P ROI s e = window_images P ROI "MODIS/006/MOD16A2" s e.
Proof.
  unfold window_images_We, window_images, filterDate, filterBounds. simpl.
  apply filter_filter_comm.
Qed.

(** X2.  When an anchor lies 16 days or more after another, no stored image
    is read for both of their windows. *)
Theorem windows_share_no_image (P : Provider) (ROI : Region) (id : string)
    (t1 t2 : Z) (img : StoredImage) :
  (t1 + days 16 ≤ t2)%Z →
  In img (window_images P ROI id t1 (t1 + days 16)%Z) →
  ¬ In img (window_images P ROI id t2 (t2 + days 16)%Z).
Proof.
  intros Hgap H1 H2.
  apply window_images_membership in H1 as (_ & _ & H1).
  apply window_images_membership in H2 as (_ & _ & H2). lia.
Qed.

Lemma windows_share_no_image_witness :
  ¬ In (Example.flat "2018-01-09" [("LST_Day_1km"%string, Some (Example.q 310))])
      (window_images Example.provider Example.ROI "MODIS/061/MOD11A2"
         1516147200000 (1516147200000 + days 16)%Z).
Proof.
  apply (windows_share_no_image Example.provider Example.ROI "MODIS/061/MOD11A2"
           1514764800000 1516147200000).
  - vm_compute. discriminate.
  - vm_compute. right. left. reflexivity.
Defined.

(** ** The NDVI series *)

Lemma collectionNDVI_series P ROI ds ts first final :
  anchors_at ds ts → head ts = Some first → last ts = Some final →
  has_band P "MODIS/061/MOD13Q1" "NDVI" →
  collectionNDVI P ROI ds
  = Ok (map (fun s =>
               SetProp "date" (EEDate.format (time_start s))
                 (Reproject "EPSG:4326" SCALE_M_PX
                    (BandMath Mul (Rename "NDVI" (Clip ROI (Stored ["NDVI"%string] s)))
                       (dec 1 10000))))
          (window_images P ROI "MODIS/061/MOD13Q1" first (final + days 1)%Z)).
Proof.
  intros Hds Hfirst Hfinal Hb. unfold collectionNDVI.
  rewrite (startDate_anchors _ _ _ Hds Hfirst), (endDate_anchors _ _ _ Hds Hfinal).
  simpl. rewrite (select_c_has P "MODIS/061/MOD13Q1") by done. simpl.
  unfold Collection_map, images. simpl. by apply List_map_total.
Qed.

(** X3.  The value of an NDVI image at a pixel is the stored NDVI value at
    the pixel it samples, times 0.0001, inside the region, and no data
    outside it. *)
Theorem NDVI_scaled (P : Provider) (ROI : Region) (s : StoredImage) (p : Pixel) :
  ∃ img, collectionNDVI_image ROI (Stored ["NDVI"%string] s) = Ok img ∧
    eval P img p
    = Ok [("NDVI"%string,
           if inside (sampled P p) ROI
           then (fun v => v * dec 1 10000) <$> pixel s "NDVI" (sampled P p)
           else None)].
Proof.
  eexists. split; [reflexivity|]. simpl. fold (sampled P p).
  destruct (inside (sampled P p) ROI); simpl; [|done].
  by destruct (pixel s "NDVI" (sampled P p)).
Qed.

(** X4.  The NDVI series has one image per stored composite that meets the
    region and is dated from the first anchor up to, but not including, the
    last anchor plus one day, in stored order, whatever the number of
    anchors; each is built from its composite and tagged with the
    composite's own day. *)
Theorem NDVI_series_follows_composites (P : Provider) (ROI : Region)
    (ds : list string) (ts : list Z) (first final : Z) :
  anchors_at ds ts → head ts = Some first → last ts = Some final →
  has_band P "MODIS/061/MOD13Q1" "NDVI" →
  ∃ l, collectionNDVI P ROI ds = Ok l ∧
    length l = length (window_images P ROI "MODIS/061/MOD13Q1" first (final + days 1)%Z) ∧
    ∀ i s, window_images P ROI "MODIS/061/MOD13Q1" first (final + days 1)%Z !! i = Some s →
      ∃ img, l !! i = Some img ∧
        collectionNDVI_image ROI (Stored ["NDVI"%string] s) = Ok img ∧
        props img !! "date"%string = Some (EEDate.format (time_start s)).
Proof.
  intros Hds Hfirst Hfinal Hb.
  rewrite (collectionNDVI_series _ _ _ _ _ _ Hds Hfirst Hfinal Hb).
  eexists. split; [reflexivity|]. split; [by rewrite length_map|].
  intros i s Hs. eexists. split; [|split].
  - rewrite list_lookup_fmap, Hs. reflexivity.
  - reflexivity.
  - simpl. apply lookup_insert_eq.
Qed.

Lemma NDVI_series_follows_composites_witness :
  ∃ l, collectionNDVI Example.provider_short_NDVI Example.ROI dates = Ok l ∧
    length l = 2%nat.
Proof.
  destruct (NDVI_series_follows_composites Example.provider_short_NDVI Example.ROI dates
              [1514764800000; 1516147200000; 1517529600000; 1518912000000]%Z
              1514764800000 1518912000000) as (l & Hl & Hlen & _).
  - repeat constructor.
  - reflexivity.
  - reflexivity.
  - by_evaluation.
  - exists l. split; [exact Hl|]. rewrite Hlen. vm_compute. reflexivity.
Defined.

(** ** The series after the mask *)

Lemma collectionLST_image_props P ROI d img :
  collectionLST_image P ROI d = Ok img → props img = {["date"%string := d]}.
Proof.
  unfold collectionLST_image.
  destruct (window d) as [[s e]|]; simpl; [|discriminate].
  destruct (select_c _ _) as [c|]; simpl; [|discriminate].
  by intros [= <-].
Qed.

Lemma collectionSOL_image_props P ROI d img :
  collectionSOL_image P ROI d = Ok img → props img = {["date"%string := d]}.
Proof.
  unfold collectionSOL_image.
  destruct (window d) as [[s e]|]; simpl; [|discriminate].
  destruct (select_c _ _) as [c|]; simpl; [|discriminate].
  by intros [= <-].
Qed.

Lemma collectionWe_image_props P ROI d img :
  collectionWe_image P ROI d = Ok img → props img = {["data"%string := d]}.
Proof.
  unfold collectionWe_image.
  destruct (window d) as [[s e]|]; simpl; [|discriminate].
  by intros [= <-].
Qed.

Lemma masked_entry {A} (f : A → res Image) mask l l' i x :
  List_map f l = Ok l' → l !! i = Some x →
  ∃ img, f x = Ok img ∧ map (maskCollections mask) l' !! i = Some (maskCollections mask img).
Proof.
  intros Hl Hx. apply List_map_Forall2 in Hl.
  destruct (Forall2_lookup_l _ _ _ _ _ Hl Hx) as (img & Himg & Hf).
  exists img. split; [done|]. by rewrite list_lookup_fmap, Himg.
Qed.

Lemma masked_inputs_Ok P ROI mask ds ins :
  masked_inputs P ROI mask ds = Ok ins →
  ∃ ndvi lst sol we,
    collectionNDVI P ROI ds = Ok ndvi ∧ collectionLST P ROI ds = Ok lst ∧
    collectionSOL P ROI ds = Ok sol ∧ collectionWe P ROI ds = Ok we ∧
    ins = {| in_NDVI := map (maskCollections mask) ndvi;
             in_LST := map (maskCollections mask) lst;
             in_SOL := map (maskCollections mask) sol;
             in_We := map (maskCollections mask) we |}.
Proof.
  unfold masked_inputs.
  destruct (collectionNDVI P ROI ds) as [ndvi|]; simpl; [|discriminate].
  destruct (collectionLST P ROI ds) as [lst|]; simpl; [|discriminate].
  destruct (collectionSOL P ROI ds) as [sol|]; simpl; [|discriminate].
  destruct (collectionWe P ROI ds) as [we|]; simpl; [|discriminate].
  intros [= <-]. by exists ndvi, lst, sol, we.
Qed.

(** X6.  After the mask the LST, SOL and We series still have one entry per
    anchor, in the order of the anchors: the i-th LST and SOL entries carry
    the i-th anchor as [date], the i-th We entry carries it as [data] and has
    no [date]. *)
Theorem masked_series_follow_anchors (P : Provider) (ROI : Region) (soybeanMask : Image)
    (ds : list string) (ins : Inputs) :
  masked_inputs P ROI soybeanMask ds = Ok ins →
  length (in_LST ins) = length ds ∧
  length (in_SOL ins) = length ds ∧
  length (in_We ins) = length ds ∧
  ∀ i d, ds !! i = Some d →
    (∃ img, in_LST ins !! i = Some img ∧ props img !! "date"%string = Some d) ∧
    (∃ img, in_SOL ins !! i = Some img ∧ props img !! "date"%string = Some d) ∧
    (∃ img, in_We ins !! i = Some img ∧ props img !! "data"%string = Some d ∧
            props img !! "date"%string = None).
Proof.
  intros Hins.
  apply masked_inputs_Ok in Hins as (ndvi & lst & sol & we & _ & Hlst & Hsol & Hwe & ->).
  simpl. rewrite !length_map.
  pose proof (Forall2_length _ _ _ (List_map_Forall2 _ _ _ Hlst)) as H1.
  pose proof (Forall2_length _ _ _ (List_map_Forall2 _ _ _ Hsol)) as H2.
  pose proof (Forall2_length _ _ _ (List_map_Forall2 _ _ _ Hwe)) as H3.
  repeat split; try done.
  - destruct (masked_entry _ soybeanMask _ _ _ _ Hlst H) as (img & Himg & Hi).
    eexists. split; [exact Hi|]. simpl.
    rewrite (collectionLST_image_props _ _ _ _ Himg). apply lookup_singleton_eq.
  - destruct (masked_entry _ soybeanMask _ _ _ _ Hsol H) as (img & Himg & Hi).
    eexists. split; [exact Hi|]. simpl.
    rewrite (collectionSOL_image_props _ _ _ _ Himg). apply lookup_singleton_eq.
  - destruct (masked_entry _ soybeanMask _ _ _ _ Hwe H) as (img & Himg & Hi).
    eexists. split; [exact Hi|]. simpl.
    rewrite (collectionWe_image_props _ _ _ _ Himg).
    split; [apply lookup_singleton_eq|]. by apply lookup_singleton_ne.
Qed.

Lemma masked_series_follow_anchors_witness :
  ∃ ins, masked_inputs Example.provider Example.ROI Example.soybeanMask dates = Ok ins ∧
    length (in_LST ins) = length dates ∧
    (∃ img, in_We ins !! 3%nat = Some img ∧ props img !! "data"%string = Some "2018-02-18"%string ∧
            props img !! "date"%string = None).
Proof.
  destruct (masked_inputs Example.provider Example.ROI Example.soybeanMask dates)
    as [ins|e] eqn:Hins; [|vm_compute in Hins; discriminate Hins].
  exists ins. split; [reflexivity|].
  destruct (masked_series_follow_anchors Example.provider Example.ROI Example.soybeanMask
              dates ins Hins) as (HLST & _ & _ & Htags).
  split; [exact HLST|].
  destruct (Htags 3%nat "2018-02-18"%string) as (_ & _ & HWe); [reflexivity|exact HWe].
Defined.

(** ** The empty list of anchors *)

(** X8.  On an empty list of anchors the accumulated series are empty, but
    the NDVI series, and with it the masked inputs and the call of
    collectionNPP, fail on the lookup of the first anchor. *)
Theorem empty_anchor_list
    (singleNPP : Image → Image → Image → Image → Qc → Qc → Image)
    (P : Provider) (ROI : Region) (soybeanMask : Image) :
  collectionLST P ROI [] = Ok [] ∧
  collectionSOL P ROI [] = Ok [] ∧
  collectionWe P ROI [] = Ok [] ∧
  collectionNDVI P ROI [] = Err (IndexOutOfBounds 0) ∧
  masked_inputs P ROI soybeanMask [] = Err (IndexOutOfBounds 0) ∧
  collectionNPP singleNPP P ROI soybeanMask [] = Err (IndexOutOfBounds 0).
Proof. by repeat split. Qed.

(** ** The values of the SOL and We series *)

(** X9.  Where the provider divides exactly by a divisor other than 0, the
    value of a SOL entry at a pixel inside the region is the sum of the
    stored hourly band over the images of the 16-day window, divided by
    1000000; outside the region it is no data. *)
Theorem SOL_sum_in_megajoules (P : Provider) (ROI : Region) (d : string) (t : Z)
    (p : Pixel) :
  EEDate.parse d = Some t →
  has_band P "ECMWF/ERA5_LAND/HOURLY" "surface_solar_radiation_downwards_hourly" →
  (∀ a b, b ≠ 0 → divide_px P a b = Some (a / b)) →
  ∃ img, collectionSOL_image P ROI d = Ok img ∧
    eval P img p
    = Ok [("SOL"%string,
           if inside (sampled P p) ROI
           then (fun v => v / dec 1000000 1)
                <$> reduce Sum
                      (values (window_images P ROI "ECMWF/ERA5_LAND/HOURLY" t (t + days 16)%Z)
                         "surface_solar_radiation_downwards_hourly" (sampled P p))
           else None)].
Proof.
  intros Hd Hb Hdiv.
  destruct (collectionSOL_image P ROI d) as [img|e] eqn:Himg;
    [|by rewrite (collectionSOL_image_Ok _ _ _ _ Hd Hb) in Himg].
  exists img. split; [done|].
  rewrite (eval_SOL _ _ d t _ _ Hd Hb Himg).
  destruct (inside (sampled P p) ROI); [|done].
  destruct (reduce Sum _) as [v|]; simpl; [|done].
  rewrite Hdiv; [done|].
  intros H. apply (f_equal this) in H. vm_compute in H. discriminate H.
Qed.

Lemma div_nodata_exact a b : b ≠ 0 → Example.div_nodata a b = Some (a / b).
Proof. intros Hb. unfold Example.div_nodata. by destruct (decide (b = 0)). Qed.

(** The one stored hour of the example has 3000000 J/m² at every pixel. *)
Lemma SOL_sum_in_megajoules_witness :
  ∃ img, collectionSOL_image Example.provider Example.ROI "2018-01-01" = Ok img ∧
    eval Example.provider img (0, 0)%Z = Ok [("SOL"%string, Some (Example.q 3))].
Proof.
  destruct (SOL_sum_in_megajoules Example.provider Example.ROI "2018-01-01"
              1514764800000 (0, 0)%Z) as (img & Himg & Hv).
  - reflexivity.
  - by_evaluation.
  - exact div_nodata_exact.
  - exists img. split; [exact Himg|]. rewrite Hv. by_evaluation.
Defined.

Lemma ratio_range (n m : Qc) :
  0 <= n → n <= m → 0 < m →
  dec 5 10 <= n / m * dec 5 10 + dec 5 10 ∧ n / m * dec 5 10 + dec 5 10 <= 1.
Proof.
  intros Hn Hnm Hm. unfold Qcle, Qclt in *.
  change (this 0) with 0%Q in *. change (this 1) with 1%Q.
  unfold Qcdiv, Qcmult, Qcplus, Qcinv, dec, Q2Qc. cbn [this].
  rewrite !Qred_correct.
  assert (H0 : (0 <= this n / this m)%Q).
  { apply Qle_shift_div_l; [exact Hm|]. lra. }
  assert (H1 : (this n / this m <= 1)%Q).
  { apply Qle_shift_div_r; [exact Hm|]. lra. }
  unfold Qdiv in H0, H1. revert H0 H1.
  generalize (this n * / this m)%Q. intros r H0 H1.
  split; lra.
Qed.

(** X10.  At a pixel inside the region where the window sums satisfy
    0 <= ET <= PET and 0 < PET, and the provider divides exactly, the We
    entry has a value between 0.5 and 1, the bounds the script displays the
    series with. *)
Theorem We_between_half_and_one (P : Provider) (ROI : Region) (d : string) (t : Z)
    (p : Pixel) (n m : Qc) :
  EEDate.parse d = Some t →
  has_band P "MODIS/006/MOD16A2" "ET" →
  has_band P "MODIS/006/MOD16A2" "PET" →
  inside (sampled P p) ROI = true →
  reduce Sum (values (window_images_We P ROI t (t + days 16)%Z) "ET" (sampled P p)) = Some n →
  reduce Sum (values (window_images_We P ROI t (t + days 16)%Z) "PET" (sampled P p)) = Some m →
  divide_px P n m = Some (n / m) →
  0 <= n → n <= m → 0 < m →
  ∃ img w, collectionWe_image P ROI d = Ok img ∧
    eval P img p = Ok [("We"%string, Some w)] ∧
    dec 5 10 <= w ∧ w <= 1.
Proof.
  intros Hd HET HPET Hin Hn Hm Hdiv H0 Hnm Hpos.
  destruct (collectionWe_image P ROI d) as [img|e] eqn:Himg;
    [|by rewrite (collectionWe_image_Ok _ _ _ _ Hd) in Himg].
  exists img, (n / m * dec 5 10 + dec 5 10). split; [done|]. split.
  - rewrite (eval_We _ _ d t _ _ Hd HET HPET Himg), Hin, Hn, Hm. simpl.
    by rewrite Hdiv.
  - by apply ratio_range.
Qed.

(** In the second window of the example ET = 0 and PET = 40. *)
Lemma We_between_half_and_one_witness :
  ∃ img w, collectionWe_image Example.provider Example.ROI "2018-01-17" = Ok img ∧
    eval Example.provider img (0, 0)%Z = Ok [("We"%string, Some w)] ∧
    dec 5 10 <= w ∧ w <= 1.
Proof.
  apply (We_between_half_and_one Example.provider Example.ROI "2018-01-17"
           1516147200000 (0, 0)%Z (Example.q 0) (Example.q 40)).
  - reflexivity.
  - by_evaluation.
  - by_evaluation.
  - reflexivity.
  - by_evaluation.
  - by_evaluation.
  - by_evaluation.
  - vm_compute. discriminate.
  - vm_compute. discriminate.
  - vm_compute. reflexivity.
Defined.

(** ** What the mask does to an image *)

Lemma keep_cases m x : keep m x = None ∨ keep m x = x.
Proof. destruct m as [w|]; simpl; [|by left]. destruct (decide (w = 0)); auto. Qed.

Lemma mask_bands_removes (mv v v' : Bands) :
  mask_bands mv v = Ok v' →
  Forall2 (fun a b => fst b = fst a ∧ (snd b = None ∨ snd b = snd a)) v v'.
Proof.
  destruct (decide (length mv = 1%nat)) as [Hone|Hmany].
  - destruct mv as [|[n m] [|nm' mv]]; try discriminate Hone.
    simpl. intros [= <-]. induction v as [|[b x] v IH]; constructor; [|done].
    split; [done|]. apply keep_cases.
  - rewrite mask_bands_many by done.
    destruct (length mv =? length v)%nat eqn:Hlen; [|discriminate].
    apply Nat.eqb_eq in Hlen. intros [= <-]. clear Hmany. revert v Hlen.
    induction mv as [|nm mv IH]; intros [|[b x] v] Hlen; try discriminate Hlen.
    + constructor.
    + simpl. constructor; [|apply IH; by injection Hlen].
      split; [done|]. apply keep_cases.
Qed.

Lemma eval_masked P mask img p v' :
  eval P (maskCollections mask img) p = Ok v' →
  ∃ mv v, eval P mask p = Ok mv ∧ eval P img p = Ok v ∧ mask_bands mv v = Ok v'.
Proof.
  unfold maskCollections, updateMask. simpl.
  destruct (eval P mask p) as [mv|]; simpl; [|discriminate].
  destruct (eval P img p) as [v|]; simpl; [|discriminate].
  intros H. by exists mv, v.
Qed.

Lemma band_removed (b : string) (v v' : Bands) (x' : Value) :
  Forall2 (fun a b => fst b = fst a ∧ (snd b = None ∨ snd b = snd a)) v v' →
  band b v' = Some x' →
  ∃ x, band b v = Some x ∧ (x' = None ∨ x' = x).
Proof.
  induction 1 as [|[n x] [n' y] v v' [Hn Hx] _ IH]; simpl; [discriminate|].
  simpl in Hn, Hx. subst n'.
  destruct (String.eqb n b); [|exact IH].
  intros [= <-]. by exists x.
Qed.

(** ** The pixel counts *)

Lemma valid_at_masked P mask img b p f' :
  valid_at P (maskCollections mask img) b p = Ok f' →
  ∃ f, valid_at P img b p = Ok f ∧ (f' = true → f = true).
Proof.
  unfold valid_at.
  destruct (eval P (maskCollections mask img) p) as [v'|] eqn:Hv'; simpl; [|discriminate].
  apply eval_masked in Hv' as (mv & v & _ & Hv & Hmask).
  apply mask_bands_removes in Hmask. rewrite Hv. simpl.
  destruct (band b v') as [x'|] eqn:Hb; [|discriminate].
  destruct (band_removed _ _ _ _ Hmask Hb) as (x & Hx & Hxx). rewrite Hx.
  intros [= <-]. eexists. split; [reflexivity|].
  destruct Hxx as [-> | ->]; [|done].
  intros H. apply bool_decide_eq_true in H. by destruct H.
Qed.

Lemma count_flags_le (fl fl' : list bool) :
  Forall2 (fun f' f : bool => f' = true → f = true) fl' fl →
  (length (List.filter (fun f : bool => f) fl') ≤ length (List.filter (fun f : bool => f) fl))%nat.
Proof.
  induction 1 as [|f' f fl' fl Hf _ IH]; [done|]. simpl.
  destruct f'; simpl.
  - rewrite Hf by done. simpl. lia.
  - destruct f; simpl; lia.
Qed.

Lemma count_flags_bound (fl : list bool) :
  (length (List.filter (fun f : bool => f) fl) ≤ length fl)%nat.
Proof. induction fl as [|[] fl IH]; simpl; lia. Qed.

Lemma List_map_masked_flags P mask img b geometry fl' :
  List_map (valid_at P (maskCollections mask img) b) geometry = Ok fl' →
  ∃ fl, List_map (valid_at P img b) geometry = Ok fl ∧
    Forall2 (fun f' f : bool => f' = true → f = true) fl' fl.
Proof.
  revert fl'. induction geometry as [|p g IH]; intros fl' H.
  - injection H as <-. exists []. split; [done|constructor].
  - rewrite List_map_cons in H.
    destruct (valid_at P (maskCollections mask img) b p) as [f'|] eqn:Hp;
      simpl in H; [|discriminate].
    destruct (List_map (valid_at P (maskCollections mask img) b) g) as [fs'|];
      simpl in H; [|discriminate].
    injection H as <-.
    destruct (valid_at_masked _ _ _ _ _ _ Hp) as (f & Hf & Himp).
    destruct (IH fs' eq_refl) as (fs & Hfs & Hall).
    exists (f :: fs). rewrite List_map_cons, Hf. simpl. rewrite Hfs. simpl.
    split; [done|by constructor].
Qed.

(** X12.  The number of pixels of a geometry at which a band of a masked
    image has a value is at most that number for the image before the mask,
    which is at most the number of pixels of the geometry; and where the
    count of the masked image succeeds, so does the count of the image. *)
Theorem masked_pixel_count_le (P : Provider) (soybeanMask img : Image)
    (geometry : Region) (b : string) (k : nat) :
  reduceRegion_count P geometry b (maskCollections soybeanMask img) = Ok k →
  ∃ k0, reduceRegion_count P geometry b img = Ok k0 ∧
    (k ≤ k0)%nat ∧ (k0 ≤ length geometry)%nat.
Proof.
  unfold reduceRegion_count.
  destruct (List_map (valid_at P (maskCollections soybeanMask img) b) geometry)
    as [fl'|] eqn:Hfl'; simpl; [|discriminate].
  intros [= <-].
  destruct (List_map_masked_flags _ _ _ _ _ _ Hfl') as (fl & Hfl & Hall).
  rewrite Hfl. simpl. eexists. split; [reflexivity|]. split.
  - by apply count_flags_le.
  - rewrite (Forall2_length _ _ _ (List_map_Forall2 _ _ _ Hfl)).
    apply count_flags_bound.
Qed.

(** The first LST entry of the example has a value at both pixels of the
    region, its masked image at one. *)
Lemma masked_pixel_count_le_witness :
  ∃ img, collectionLST_image Example.provider Example.ROI "2018-01-01" = Ok img ∧
    reduceRegion_count Example.provider Example.ROI "LST"
      (maskCollections Example.soybeanMask img) = Ok 1%nat ∧
    ∃ k0, reduceRegion_count Example.provider Example.ROI "LST" img = Ok k0 ∧
      (1 ≤ k0)%nat ∧ (k0 ≤ length Example.ROI)%nat.
Proof.
  destruct (collectionLST_image Example.provider Example.ROI "2018-01-01")
    as [img|e] eqn:Himg; [|vm_compute in Himg; discriminate Himg].
  exists img. split; [reflexivity|].
  assert (Hk : reduceRegion_count Example.provider Example.ROI "LST"
                 (maskCollections Example.soybeanMask img) = Ok 1%nat).
  { apply (f_equal (fun r => match r with Ok i => Some i | Err _ => None end)) in Himg.
    vm_compute in Himg. injection Himg as <-. vm_compute. reflexivity. }
  split; [exact Hk|].
  exact (masked_pixel_count_le Example.provider Example.soybeanMask img Example.ROI
           "LST" 1 Hk).
Defined.
